(** * MongoDB Atlas projects manager: model and verified properties

    A shallow embedding of [atlas_projects_manager.py]: the record
    constructors [ProjectData] and [ClusterData], the API client [AtlasAPI]
    (three operations over one HTTP exchange each), and the Textual
    application [AtlasProjectsApp] with its pushed [ClusterViewScreen].

    Python values coming out of [response.json()] are kept dynamically
    typed ([pyval]); exceptions are explicit results; the mutable
    application object, the screen objects and the request log are threaded
    through a small state-and-exception monad. *)

From Stdlib Require Import ZArith String Ascii List Bool Lia.
From Stdlib Require Import Floats.SpecFloat.
From stdpp Require Import base list.
Import ListNotations.

Set Warnings "-register-all".
Local Open Scope string_scope.
Local Open Scope Z_scope.

(** ** Python values *)

(** What [json.loads] can build.  A [dict] keeps its insertion order; keys
    of a Python dict are distinct, lookups below take the first binding. *)
Inductive pyval : Type :=
| PNone
| PBool (b : bool)
| PInt (z : Z)
| PFloat (f : spec_float)
| PStr (s : string)
| PList (l : list pyval)
| PDict (d : list (string * pyval)).

Abbreviation pydict := (list (string * pyval)).

(** [type(v).__name__], as it shows in CPython's error messages. *)
Definition type_name (v : pyval) : string :=
  match v with
  | PNone => "NoneType"
  | PBool _ => "bool"
  | PInt _ => "int"
  | PFloat _ => "float"
  | PStr _ => "str"
  | PList _ => "list"
  | PDict _ => "dict"
  end.

Fixpoint dict_lookup (d : pydict) (key : string) : option pyval :=
  match d with
  | [] => None
  | (k, v) :: rest => if String.eqb k key then Some v else dict_lookup rest key
  end.

(** [d.get(key, default)] *)
Definition dict_get (d : pydict) (key : string) (default : pyval) : pyval :=
  match dict_lookup d key with
  | Some v => v
  | None => default
  end.

Definition float_is_zero (f : spec_float) : bool :=
  match f with
  | S754_zero _ => true
  | _ => false
  end.

(** [bool(v)]: the truth value used by [if v:] and [v or w]. *)
Definition truthy (v : pyval) : bool :=
  match v with
  | PNone => false
  | PBool b => b
  | PInt z => negb (z =? 0)
  | PFloat f => negb (float_is_zero f)
  | PStr s => negb (String.eqb s "")
  | PList l => match l with [] => false | _ => true end
  | PDict d => match d with [] => false | _ => true end
  end.

(** [v or w] *)
Definition py_or (v w : pyval) : pyval := if truthy v then v else w.

(** The integer a float denotes, when it denotes one. *)
Definition float_to_Z (f : spec_float) : option Z :=
  match f with
  | S754_zero _ => Some 0
  | S754_finite s m e =>
      let mag :=
        if 0 <=? e then Some (Z.pos m * 2 ^ e)
        else if (Z.pos m mod 2 ^ (- e)) =? 0 then Some (Z.pos m / 2 ^ (- e))
        else None in
      option_map (fun v => if s then - v else v) mag
  | _ => None
  end.

Definition int_float_eq (z : Z) (f : spec_float) : bool :=
  match float_to_Z f with
  | Some v => z =? v
  | None => false
  end.

Definition Z_of_bool (b : bool) : Z := if b then 1 else 0.

(** [a == b] on values.  [bool] is a subclass of [int], and [int] and
    [float] compare by numeric value; a NaN differs from everything,
    itself included; dicts compare regardless of order.  (CPython compares
    the elements of a list, and the values of a dict, by identity first:
    that shortcut only matters for a container that holds a NaN.) *)
Fixpoint py_eq (a b : pyval) : bool :=
  match a, b with
  | PNone, PNone => true
  | PBool x, PBool y => Bool.eqb x y
  | PBool x, PInt y => Z_of_bool x =? y
  | PInt x, PBool y => x =? Z_of_bool y
  | PInt x, PInt y => x =? y
  | PBool x, PFloat f => int_float_eq (Z_of_bool x) f
  | PFloat f, PBool y => int_float_eq (Z_of_bool y) f
  | PInt x, PFloat f => int_float_eq x f
  | PFloat f, PInt y => int_float_eq y f
  | PFloat f, PFloat g => SFeqb f g
  | PStr s, PStr t => String.eqb s t
  | PList l, PList m =>
      (fix all2 (l : list pyval) (m : list pyval) : bool :=
         match l, m with
         | [], [] => true
         | x :: l', y :: m' => py_eq x y && all2 l' m'
         | _, _ => false
         end) l m
  | PDict d, PDict e =>
      (length d =? length e)%nat &&
      (fix sub (d : pydict) : bool :=
         match d with
         | [] => true
         | (k, v) :: d' =>
             match dict_lookup e k with
             | Some w => py_eq v w
             | None => false
             end && sub d'
         end) d
  | _, _ => false
  end.

(** ** Exceptions and results *)

(** An f-string kept as its parts: literal text and interpolated values,
    so that no rendering of floats or containers has to be invented. *)
Inductive fragment (E : Type) : Type :=
| Lit (s : string)
| Val (v : pyval)
| Num (n : Z)
| Exc (e : E).
Arguments Lit {E} s.
Arguments Val {E} v.
Arguments Num {E} n.
Arguments Exc {E} e.

(** The two kinds of [httpx.HTTPError] the client can meet:
    [raise_for_status] on a response outside 2xx, and a failure of the
    exchange itself (connect, TLS, timeout after 30 seconds, ...). *)
Inductive httpx_error : Type :=
| HTTPStatusError (status_code : Z)
| TransportError (detail : string).

Inductive exn : Type :=
| HTTPError (e : httpx_error)
| JSONDecodeError
| UnicodeDecodeError
| RecursionError
| AttributeError (obj_type attr : string)
| TypeError (obj_type what : string)
| KeyError (what : string)
| IndexError
| StopIteration
| RowDoesNotExist (row_index : Z)
| NoMatches (selector : string)
| ScreenStackError
| PyException (message : list (fragment httpx_error)).

Inductive result (A : Type) : Type :=
| Ok (a : A)
| Raise (e : exn).
Arguments Ok {A} a.
Arguments Raise {A} e.

(** ** Data models *)

Record ProjectData : Type := mkProjectData {
  id : pyval;
  name : pyval;
  org_id : pyval;
  created : pyval;
  cluster_count : pyval;
  links : pyval
}.

(** [ProjectData.__init__]: six [dict.get] calls.  Anything but a dict
    has no [get]. *)
Definition ProjectData_init (project_data : pyval) : result ProjectData :=
  match project_data with
  | PDict d =>
      Ok {| id := dict_get d "id" (PStr "");
            name := dict_get d "name" (PStr "");
            org_id := dict_get d "orgId" (PStr "");
            created := dict_get d "created" (PStr "");
            cluster_count := dict_get d "clusterCount" (PInt 0);
            links := dict_get d "links" (PList []) |}
  | v => Raise (AttributeError (type_name v) "get")
  end.

Record ClusterData : Type := mkClusterData {
  cl_id : pyval;
  cl_name : pyval;
  connection_strings : pyval;
  cluster_type : pyval;
  mongo_db_version : pyval;
  state_name : pyval;
  created_date : pyval;
  provider_settings : pyval;
  backup_enabled : pyval;
  encryption_at_rest_provider : pyval;
  provider_name : pyval;
  region_name : pyval;
  instance_size_name : pyval
}.

(** [self.provider_settings.get(key, 'Unknown')] *)
Definition provider_get (provider_settings : pyval) (key : string) : result pyval :=
  match provider_settings with
  | PDict ps => Ok (dict_get ps key (PStr "Unknown"))
  | v => Raise (AttributeError (type_name v) "get")
  end.

(** [ClusterData.__init__] *)
Definition ClusterData_init (cluster_data : pyval) : result ClusterData :=
  match cluster_data with
  | PDict d =>
      let settings := dict_get d "providerSettings" (PDict []) in
      let build pn rn isn :=
        {| cl_id := dict_get d "id" (PStr "");
           cl_name := dict_get d "name" (PStr "");
           connection_strings := dict_get d "connectionStrings" (PDict []);
           cluster_type := dict_get d "clusterType" (PStr "");
           mongo_db_version := dict_get d "mongoDBVersion" (PStr "");
           state_name := dict_get d "stateName" (PStr "");
           created_date := dict_get d "createDate" (PStr "");
           provider_settings := settings;
           backup_enabled := dict_get d "backupEnabled" (PBool false);
           encryption_at_rest_provider := dict_get d "encryptionAtRestProvider" (PStr "");
           provider_name := pn;
           region_name := rn;
           instance_size_name := isn |} in
      if truthy settings then
        match provider_get settings "providerName" with
        | Raise e => Raise e
        | Ok pn =>
            match provider_get settings "regionName" with
            | Raise e => Raise e
            | Ok rn =>
                match provider_get settings "instanceSizeName" with
                | Raise e => Raise e
                | Ok isn => Ok (build pn rn isn)
                end
            end
        end
      else Ok (build (PStr "Unknown") (PStr "Unknown") (PStr "Unknown"))
  | v => Raise (AttributeError (type_name v) "get")
  end.

(** ** The remote API, seen from the client *)

Inductive http_method : Type := GET | DELETE.

(** The three URLs built from [base_url]; the interpolated project id is
    kept as the value it is. *)
Inductive route : Type :=
| Groups
| Group (project_id : pyval)
| GroupClusters (project_id : pyval).

Record request : Type := mkRequest {
  req_method : http_method;
  req_route : route;
  req_auth : string * string
}.

(** Why [response.json()] raises on a body it cannot turn into a value:
    the text is not JSON ([json.JSONDecodeError]), the bytes are not UTF-8
    ([UnicodeDecodeError]), or the nesting exceeds the interpreter's
    recursion limit ([RecursionError]). *)
Inductive decode_fault : Type := NotJSON | NotUTF8 | TooDeep.

(** A response as the client looks at it: the status line, what
    [response.json()] gives ([None] when it raises), and, for a body that
    makes it raise, why. *)
Record response : Type := Response {
  status_code : Z;
  json : option pyval;
  fault : decode_fault
}.

(** A response whose body, when it does not decode, is simply not JSON. *)
Definition mkResponse (status_code : Z) (json : option pyval) : response :=
  Response status_code json NotJSON.

(** How the exchange of a request that was sent ends: [client.get] or
    [client.delete] raises an [httpx.HTTPError] (connection, TLS, timeout),
    or hands back a response. *)
Inductive exchange : Type :=
| Failed (detail : string)
| Replied (r : response).

Definition is_success (r : response) : bool :=
  (200 <=? status_code r) && (status_code r <=? 299).

(** [response.raise_for_status()] *)
Definition raise_for_status (r : response) : result unit :=
  if is_success r then Ok tt else Raise (HTTPError (HTTPStatusError (status_code r))).

(** [response.json()] *)
Definition response_json (r : response) : result pyval :=
  match json r with
  | Some v => Ok v
  | None =>
      Raise match fault r with
            | NotJSON => JSONDecodeError
            | NotUTF8 => UnicodeDecodeError
            | TooDeep => RecursionError
            end
  end.

(** [for x in v]: the items a [for] loop visits. *)
Definition py_iter (v : pyval) : result (list pyval) :=
  match v with
  | PList l => Ok l
  | PDict d => Ok (map (fun kv => PStr (fst kv)) d)
  | PStr s => Ok (map (fun c => PStr (String c EmptyString)) (list_ascii_of_string s))
  | v => Raise (TypeError (type_name v) "is not iterable")
  end.

(** The loop [for x in items: out.append(init(x))]. *)
Fixpoint build_records {A : Type} (init : pyval -> result A) (items : list pyval)
  : result (list A) :=
  match items with
  | [] => Ok []
  | x :: rest =>
      match init x with
      | Raise e => Raise e
      | Ok a =>
          match build_records init rest with
          | Raise e => Raise e
          | Ok out => Ok (a :: out)
          end
      end
  end.

(** [data.get('results', [])] followed by the loop. *)
Definition parse_results {A : Type} (init : pyval -> result A) (data : pyval)
  : result (list A) :=
  match data with
  | PDict d =>
      match py_iter (dict_get d "results" (PList [])) with
      | Raise e => Raise e
      | Ok items => build_records init items
      end
  | v => Raise (AttributeError (type_name v) "get")
  end.

(** The two [except] clauses shared by the three operations:
    [httpx.HTTPError] and [json.JSONDecodeError] are re-raised as a plain
    [Exception]; anything else passes through. *)
Definition translate {A : Type} (r : result A) : result A :=
  match r with
  | Raise (HTTPError e) => Raise (PyException [Lit "API request failed: "; Exc e])
  | Raise JSONDecodeError => Raise (PyException [Lit "Invalid JSON response from API"])
  | other => other
  end.

(** The body of the [try] block of a list operation, once the exchange
    is over. *)
Definition list_body {A : Type} (init : pyval -> result A) (x : exchange)
  : result (list A) :=
  match x with
  | Failed detail => Raise (HTTPError (TransportError detail))
  | Replied r =>
      match raise_for_status r with
      | Raise e => Raise e
      | Ok _ =>
          match response_json r with
          | Raise e => Raise e
          | Ok data => parse_results init data
          end
      end
  end.

Definition get_projects_of (x : exchange) : result (list ProjectData) :=
  translate (list_body ProjectData_init x).

Definition get_clusters_of (x : exchange) : result (list ClusterData) :=
  translate (list_body ClusterData_init x).

(** [delete_one_project]: the body is never read. *)
Definition delete_one_project_of (x : exchange) : result bool :=
  match
    translate
      match x with
      | Failed detail => Raise (HTTPError (TransportError detail))
      | Replied r => raise_for_status r
      end
  with
  | Raise e => Raise e
  | Ok _ => Ok true
  end.

(** ** Dates: [datetime.fromisoformat] and [strftime] *)

(** The calendar fields [strftime('%d-%b-%Y %H:%M')] reads. *)
Record datetime : Type := mkDatetime {
  year : Z;
  month : Z;
  day : Z;
  hour : Z;
  minute : Z
}.

Definition digit_of (c : ascii) : option Z :=
  let n := Z.of_N (N_of_ascii c) in
  if (48 <=? n) && (n <=? 57) then Some (n - 48) else None.

(** Exactly [n] decimal digits. *)
Fixpoint read_digits (n : nat) (s : string) (acc : Z) : option (Z * string) :=
  match n with
  | O => Some (acc, s)
  | S n' =>
      match s with
      | String c rest =>
          match digit_of c with
          | Some d => read_digits n' rest (acc * 10 + d)
          | None => None
          end
      | EmptyString => None
      end
  end.

Definition expect (c : ascii) (s : string) : option string :=
  match s with
  | String c' rest => if Ascii.eqb c c' then Some rest else None
  | EmptyString => None
  end.

Fixpoint skip_digits (s : string) : string :=
  match s with
  | String c rest =>
      match digit_of c with
      | Some _ => skip_digits rest
      | None => s
      end
  | EmptyString => s
  end.

Definition starts_with (c : ascii) (s : string) : bool :=
  match s with
  | String c' _ => Ascii.eqb c c'
  | EmptyString => false
  end.

(** An optional fraction: [.] or [,] and at least one digit. *)
Definition read_fraction (s : string) : option string :=
  if starts_with "." s || starts_with "," s then
    match s with
    | String _ rest =>
        match read_digits 1 rest 0 with
        | Some (_, rest') => Some (skip_digits rest')
        | None => None
        end
    | EmptyString => None
    end
  else Some s.

(** [HH[:MM[:SS[.ffffff]]]], as three numbers and the unread rest. *)
Definition read_hh_mm_ss (s : string) : option (Z * Z * Z * string) :=
  '(h, s1) ← read_digits 2 s 0;
  if starts_with ":" s1 then
    s2 ← expect ":" s1;
    '(m, s3) ← read_digits 2 s2 0;
    if starts_with ":" s3 then
      s4 ← expect ":" s3;
      '(sec, s5) ← read_digits 2 s4 0;
      s6 ← read_fraction s5;
      Some (h, m, sec, s6)
    else Some (h, m, 0, s3)
  else Some (h, 0, 0, s1).

Definition in_range (lo hi v : Z) : bool := (lo <=? v) && (v <=? hi).

(** The UTC offset that may close the string: [Z], or a sign and
    [HH[:MM[:SS]]] strictly inside a day. *)
Definition read_tz (s : string) : option unit :=
  match s with
  | EmptyString => Some tt
  | String c rest =>
      if Ascii.eqb c "Z" then
        match rest with EmptyString => Some tt | _ => None end
      else if Ascii.eqb c "+" || Ascii.eqb c "-" then
        '(h, m, sec, rest') ← read_hh_mm_ss rest;
        match rest' with
        | EmptyString =>
            if in_range 0 23 h && in_range 0 59 m && in_range 0 59 sec
            then Some tt else None
        | _ => None
        end
      else None
  end.

Definition is_leap (y : Z) : bool :=
  ((y mod 4 =? 0) && negb (y mod 100 =? 0)) || (y mod 400 =? 0).

Definition days_in_month (y m : Z) : Z :=
  if m =? 2 then (if is_leap y then 29 else 28)
  else if (m =? 4) || (m =? 6) || (m =? 9) || (m =? 11) then 30
  else 31.

(** [datetime.fromisoformat] on the extended ISO 8601 layout
    [YYYY-MM-DD[*HH[:MM[:SS[.f]]][offset]]], the one the remote API
    sends.  [None] stands for [ValueError]; the compact layouts
    ([YYYYMMDD], [+HHMM], week dates), which Python parses from 3.11 on,
    are not covered and count as [None] here. *)
Definition fromisoformat (s : string) : option datetime :=
  '(y, s1) ← read_digits 4 s 0;
  s2 ← expect "-" s1;
  '(mo, s3) ← read_digits 2 s2 0;
  s4 ← expect "-" s3;
  '(d, s5) ← read_digits 2 s4 0;
  if in_range 1 9999 y && in_range 1 12 mo && in_range 1 (days_in_month y mo) d then
    match s5 with
    | EmptyString => Some (mkDatetime y mo d 0 0)
    | String _ s6 =>
        '(h, mi, sec, s7) ← read_hh_mm_ss s6;
        _ ← read_tz s7;
        if in_range 0 23 h && in_range 0 59 mi && in_range 0 59 sec
        then Some (mkDatetime y mo d h mi) else None
    end
  else None.

Definition digit_char (d : Z) : ascii := ascii_of_N (Z.to_N (48 + d mod 10)).

Definition pad2 (v : Z) : string :=
  String (digit_char (v / 10)) (String (digit_char v) EmptyString).

Definition pad4 (v : Z) : string := pad2 (v / 100) ++ pad2 (v mod 100).

(** [%b] in the C locale. *)
Definition month_abbr (m : Z) : string :=
  nth (Z.to_nat (m - 1))
    ["Jan"; "Feb"; "Mar"; "Apr"; "May"; "Jun";
     "Jul"; "Aug"; "Sep"; "Oct"; "Nov"; "Dec"] "".

(** [dt.strftime('%d-%b-%Y %H:%M')] in the C locale, for the years from
    1000 on; below 1000 the C library decides whether [%Y] is padded, and
    the four digits written here are one of the two outcomes. *)
Definition strftime (dt : datetime) : string :=
  pad2 (day dt) ++ "-" ++ month_abbr (month dt) ++ "-" ++ pad4 (year dt)
  ++ " " ++ pad2 (hour dt) ++ ":" ++ pad2 (minute dt).

(** [s.replace('Z', '+00:00')] *)
Fixpoint replace_Z (s : string) : string :=
  match s with
  | EmptyString => EmptyString
  | String c rest =>
      if Ascii.eqb c "Z" then "+00:00" ++ replace_Z rest
      else String c (replace_Z rest)
  end.

(** The date cell of a project row: ["N/A"] for a falsy [created], the
    formatted date when it parses, and under the bare [except] the slice
    [created[:19]], which itself raises on what cannot be sliced.  (A
    [string] here is a sequence of bytes; Python slices code points, which
    is the same for ASCII text.) *)
Definition created_cell (created : pyval) : result pyval :=
  if truthy created then
    match created with
    | PStr s =>
        match fromisoformat (replace_Z s) with
        | Some dt => Ok (PStr (strftime dt))
        | None => Ok (PStr (substring 0 19 s))
        end
    | PList l => Ok (PList (take 19 l))
    | PDict _ => Raise (KeyError "slice(None, 19, None)")
    | v => Raise (TypeError (type_name v) "is not subscriptable")
    end
  else Ok (PStr "N/A").

(** ** Application state *)

(** A status line as it is formatted: f-string parts, with the caught
    exception where [str(e)] is interpolated. *)
Definition message : Type := list (fragment exn).

Record AtlasAPI : Type := mkAtlasAPI {
  api_public_key : string;
  api_private_key : string
}.

Definition row : Type := list pyval.

(** A [ClusterViewScreen] object.  [attached] tells whether its widgets
    are still in the DOM, that is whether [self.query_one] finds them. *)
Record ClusterViewScreen : Type := mkScreen {
  project_data : ProjectData;
  scr_api_client : AtlasAPI;
  clusters : list ClusterData;
  clusters_table : list row;
  cluster_status_display : message;
  attached : bool
}.

(** What an observer sees happen, in order. *)
Inductive event : Type :=
| Sent (r : request)
| Closed
| Status (m : message) (status_type : string)
| ClusterStatus (screen : nat) (m : message).

(** The [AtlasProjectsApp] object, the screen objects it has built
    (addressed by their position in [screens]), the stack of pushed screens
    above the project list (top first), and the event log. *)
Record World : Type := mkWorld {
  status_text : message;
  status_class : string;
  projects : list ProjectData;
  projects_table : list row;
  api_client : option AtlasAPI;
  public_key : string;
  private_key : string;
  screens : list ClusterViewScreen;
  screen_stack : list nat;
  log : list event
}.

Definition set_status (m : message) (c : string) (w : World) : World :=
  mkWorld m c (projects w) (projects_table w) (api_client w) (public_key w)
    (private_key w) (screens w) (screen_stack w) (log w).

Definition set_projects (ps : list ProjectData) (w : World) : World :=
  mkWorld (status_text w) (status_class w) ps (projects_table w) (api_client w)
    (public_key w) (private_key w) (screens w) (screen_stack w) (log w).

Definition set_projects_table (t : list row) (w : World) : World :=
  mkWorld (status_text w) (status_class w) (projects w) t (api_client w)
    (public_key w) (private_key w) (screens w) (screen_stack w) (log w).

Definition set_api_client (c : option AtlasAPI) (w : World) : World :=
  mkWorld (status_text w) (status_class w) (projects w) (projects_table w) c
    (public_key w) (private_key w) (screens w) (screen_stack w) (log w).

Definition set_screens (s : list ClusterViewScreen) (w : World) : World :=
  mkWorld (status_text w) (status_class w) (projects w) (projects_table w)
    (api_client w) (public_key w) (private_key w) s (screen_stack w) (log w).

Definition set_screen_stack (s : list nat) (w : World) : World :=
  mkWorld (status_text w) (status_class w) (projects w) (projects_table w)
    (api_client w) (public_key w) (private_key w) (screens w) s (log w).

Definition add_event (e : event) (w : World) : World :=
  mkWorld (status_text w) (status_class w) (projects w) (projects_table w)
    (api_client w) (public_key w) (private_key w) (screens w) (screen_stack w)
    (log w ++ [e]).

Definition with_clusters (cs : list ClusterData) (s : ClusterViewScreen) :=
  mkScreen (project_data s) (scr_api_client s) cs (clusters_table s)
    (cluster_status_display s) (attached s).

Definition with_clusters_table (t : list row) (s : ClusterViewScreen) :=
  mkScreen (project_data s) (scr_api_client s) (clusters s) t
    (cluster_status_display s) (attached s).

Definition with_cluster_status (m : message) (s : ClusterViewScreen) :=
  mkScreen (project_data s) (scr_api_client s) (clusters s) (clusters_table s)
    m (attached s).

(** The requests among the events. *)
Fixpoint requests (l : list event) : list request :=
  match l with
  | [] => []
  | Sent r :: rest => r :: requests rest
  | _ :: rest => requests rest
  end.

Definition is_list_projects (r : request) : bool :=
  match req_method r, req_route r with
  | GET, Groups => true
  | _, _ => false
  end.

(** How many times [GET /groups] was issued. *)
Definition list_projects_calls (w : World) : nat :=
  length (List.filter is_list_projects (requests (log w))).

(** ** A state-and-exception monad

    A computation runs on the world and either returns or raises; what it
    wrote before raising stays written, as in Python. *)
Definition M (A : Type) : Type := World -> result A * World.

Definition ret {A : Type} (a : A) : M A := fun w => (Ok a, w).

Definition raise {A : Type} (e : exn) : M A := fun w => (Raise e, w).

Definition bind {A B : Type} (m : M A) (k : A -> M B) : M B :=
  fun w =>
    match m w with
    | (Ok a, w') => k a w'
    | (Raise e, w') => (Raise e, w')
    end.

Notation "x <- m ;; k" := (bind m (fun x => k))
  (at level 100, m at next level, right associativity).
Notation "m ;; k" := (bind m (fun _ => k))
  (at level 100, right associativity).

Definition lift {A : Type} (r : result A) : M A := fun w => (r, w).

Definition gets {A : Type} (f : World -> A) : M A := fun w => (Ok (f w), w).

Definition modify (f : World -> World) : M unit := fun w => (Ok tt, f w).

(** [try: body  except <classes> as e: handler e] *)
Definition try_except {A : Type} (body : M A) (classes : exn -> bool)
    (handler : exn -> M A) : M A :=
  fun w =>
    match body w with
    | (Raise e, w') => if classes e then handler e w' else (Raise e, w')
    | done => done
    end.

(** [for x in xs: body x] *)
Fixpoint for_each {A : Type} (xs : list A) (body : A -> M unit) : M unit :=
  match xs with
  | [] => ret tt
  | x :: rest => body x ;; for_each rest body
  end.

(** Every class raised in this program derives from [Exception]. *)
Definition Exception_ (e : exn) : bool := true.

(** [(IndexError, StopIteration)] *)
Definition IndexError_StopIteration (e : exn) : bool :=
  match e with
  | IndexError | StopIteration => true
  | _ => false
  end.

(** [f"...{'s' if count != 1 else ''}"] *)
Definition plural (count : Z) : string := if count =? 1 then "" else "s".

(** ** The client, the application and the cluster screen *)

Section App.

(** The remote service: its answer to a request, given the requests it
    has already served. *)
Variable remote : list request -> request -> exchange.

(** [await self.client.get(...)] / [await self.client.delete(...)] on a
    URL httpx accepts: the request goes out and the exchange ends as the
    remote decides.  (httpx refuses a URL with an ASCII control character
    or longer than 65536 characters with [httpx.InvalidURL] before
    anything is sent; see [sendable] for the URLs that pass.) *)
Definition send (req : request) : M exchange :=
  fun w => (Ok (remote (requests (log w)) req), add_event (Sent req) w).

Definition auth_of (api : AtlasAPI) : string * string :=
  (api_public_key api, api_private_key api).

Definition get_projects (api : AtlasAPI) : M (list ProjectData) :=
  x <- send (mkRequest GET Groups (auth_of api)) ;;
  lift (get_projects_of x).

Definition get_clusters (api : AtlasAPI) (project_id : pyval) : M (list ClusterData) :=
  x <- send (mkRequest GET (GroupClusters project_id) (auth_of api)) ;;
  lift (get_clusters_of x).

Definition delete_one_project (api : AtlasAPI) (project_id : pyval) : M bool :=
  x <- send (mkRequest DELETE (Group project_id) (auth_of api)) ;;
  lift (delete_one_project_of x).

(** *** [AtlasProjectsApp] *)

(** [self.query_one(selector)] on the app searches the screen on top of
    the stack; the widgets of the project list are found when no screen is
    pushed above it.  (Textual from 3.0 on searches the default screen
    instead, which is the same as long as nothing is pushed.) *)
Definition query_one (selector : string) : M unit :=
  fun w =>
    match screen_stack w with
    | [] => (Ok tt, w)
    | _ :: _ => (Raise (NoMatches selector), w)
    end.

Definition update_status (m : message) (status_type : string) : M unit :=
  query_one "#status_display" ;;
  modify (set_status m status_type) ;;
  modify (add_event (Status m status_type)).

Definition project_row (project : ProjectData) : M row :=
  created_date <- lift (created_cell (created project)) ;;
  ret [py_or (name project) (PStr "Unnamed Project"); id project; created_date].

Definition add_row (r : row) : M unit :=
  modify (fun w => set_projects_table (projects_table w ++ [r]) w).

Definition update_projects_table : M unit :=
  query_one "#projects_table" ;;
  modify (set_projects_table []) ;;
  ps <- gets projects ;;
  for_each ps (fun project => r <- project_row project ;; add_row r).

Definition fetch_projects (public_key private_key : string) : M unit :=
  update_status [Lit "Loading projects..."] "" ;;
  try_except
    (client <- gets api_client ;;
     match client with
     | Some _ => modify (add_event Closed)
     | None => ret tt
     end ;;
     modify (set_api_client (Some (mkAtlasAPI public_key private_key))) ;;
     ps <- get_projects (mkAtlasAPI public_key private_key) ;;
     modify (set_projects ps) ;;
     update_projects_table ;;
     let count := Z.of_nat (length ps) in
     update_status
       [Lit "Successfully loaded "; Num count; Lit " project"; Lit (plural count)]
       "success")
    Exception_
    (fun e => update_status [Lit "Error: "; Exc e] "error").

(** [table.get_row_at(i)] *)
Definition get_row_at (i : Z) : M row :=
  fun w =>
    if (0 <=? i) && (i <? Z.of_nat (length (projects_table w))) then
      match projects_table w !! Z.to_nat i with
      | Some r => (Ok r, w)
      | None => (Raise (RowDoesNotExist i), w)
      end
    else (Raise (RowDoesNotExist i), w).

(** [selected_row[k]] *)
Definition item (r : row) (k : nat) : M pyval :=
  match r !! k with
  | Some v => ret v
  | None => raise IndexError
  end.

(** [action_delete], with the value [table.cursor_row] has when the key
    is pressed. *)
Definition action_delete (cursor_row : option Z) : M unit :=
  query_one "#projects_table" ;;
  match cursor_row with
  | None => update_status [Lit "Please select a project to delete"] ""
  | Some i =>
      if i <? 0 then update_status [Lit "Please select a project to delete"] ""
      else
        try_except
          (update_status [Lit "Deleting project..."; Num i] "" ;;
           selected_row <- get_row_at i ;;
           project_name <- item selected_row 0 ;;
           project_id <- item selected_row 1 ;;
           update_status
             [Lit "Deleting project: "; Val project_name; Lit " - "; Val project_id] "" ;;
           pk <- gets public_key ;;
           sk <- gets private_key ;;
           modify (set_api_client (Some (mkAtlasAPI pk sk))) ;;
           delete_one_project (mkAtlasAPI pk sk) project_id ;;
           update_status
             [Lit "Project deleted: "; Val project_name; Lit " - "; Val project_id]
             "success" ;;
           fetch_projects pk sk)
          IndexError_StopIteration
          (fun _ => update_status [Lit "Could not find selected project"] "error")
  end.

Definition action_authenticate : M unit :=
  update_status [Lit "Authenticating..."] "" ;;
  pk <- gets public_key ;;
  sk <- gets private_key ;;
  fetch_projects pk sk.

(** [ClusterViewScreen(project, api)] followed by [self.push_screen]:
    the new object starts with no clusters and the composed status text. *)
Definition push_screen (project : ProjectData) (api : AtlasAPI) : M unit :=
  modify (fun w =>
    set_screen_stack (length (screens w) :: screen_stack w)
      (set_screens
         (screens w ++ [mkScreen project api [] [] [Lit "Loading clusters..."] true])
         w)).

(** The [for ... break] search for the project behind the selected row. *)
Definition find_project (project_id : pyval) (ps : list ProjectData)
  : option ProjectData :=
  List.find (fun project => py_eq (id project) project_id) ps.

Definition action_cluster (cursor_row : option Z) : M unit :=
  query_one "#projects_table" ;;
  match cursor_row with
  | None => update_status [Lit "Please select a project to view clusters"] ""
  | Some i =>
      if i <? 0 then
        update_status [Lit "Please select a project to view clusters"] ""
      else
        try_except
          (selected_row <- get_row_at i ;;
           project_name <- item selected_row 0 ;;
           project_id <- item selected_row 1 ;;
           ps <- gets projects ;;
           match find_project project_id ps with
           | Some selected_project =>
               update_status [Lit "Opening clusters for: "; Val project_name] "" ;;
               client <- gets api_client ;;
               api <- match client with
                      | Some api => ret api
                      | None =>
                          pk <- gets public_key ;;
                          sk <- gets private_key ;;
                          modify (set_api_client (Some (mkAtlasAPI pk sk))) ;;
                          ret (mkAtlasAPI pk sk)
                      end ;;
               push_screen selected_project api
           | None => update_status [Lit "Could not find project data"] "error"
           end)
          Exception_
          (fun e => update_status [Lit "Error viewing clusters: "; Exc e] "error")
  end.

(** *** [ClusterViewScreen], an object addressed by [self] *)

Definition get_screen (self : nat) : M ClusterViewScreen :=
  fun w =>
    match screens w !! self with
    | Some s => (Ok s, w)
    | None => (Raise (NoMatches "screen"), w)
    end.

Definition modify_screen (self : nat) (f : ClusterViewScreen -> ClusterViewScreen)
  : M unit :=
  modify (fun w => set_screens (alter f self (screens w)) w).

(** [self.query_one(selector)] on the screen *)
Definition screen_query_one (self : nat) (selector : string) : M unit :=
  s <- get_screen self ;;
  if attached s then ret tt else raise (NoMatches selector).

Definition screen_update_status (self : nat) (m : message) : M unit :=
  screen_query_one self "#cluster_status_display" ;;
  modify_screen self (with_cluster_status m) ;;
  modify (add_event (ClusterStatus self m)).

Definition cluster_row (cluster : ClusterData) : row :=
  [py_or (cl_name cluster) (PStr "Unnamed Cluster");
   py_or (state_name cluster) (PStr "Unknown");
   provider_name cluster;
   region_name cluster;
   instance_size_name cluster;
   py_or (mongo_db_version cluster) (PStr "Unknown")].

Definition update_clusters_table (self : nat) : M unit :=
  screen_query_one self "#clusters_table" ;;
  modify_screen self (with_clusters_table []) ;;
  s <- get_screen self ;;
  for_each (clusters s) (fun cluster =>
    modify_screen self (fun s => with_clusters_table (clusters_table s ++ [cluster_row cluster]) s)).

(** [fetch_clusters] up to the point where it awaits the response ... *)
Definition fetch_clusters_request (self : nat) : M exchange :=
  screen_update_status self [Lit "Loading clusters..."] ;;
  s <- get_screen self ;;
  send (mkRequest GET (GroupClusters (id (project_data s))) (auth_of (scr_api_client s))).

(** ... and from the point where the response has arrived. *)
Definition fetch_clusters_apply (self : nat) (x : exchange) : M unit :=
  cs <- lift (get_clusters_of x) ;;
  modify_screen self (with_clusters cs) ;;
  update_clusters_table self ;;
  let count := Z.of_nat (length cs) in
  screen_update_status self
    [Lit "Successfully loaded "; Num count; Lit " cluster"; Lit (plural count)].

Definition fetch_clusters_failed (self : nat) (e : exn) : M unit :=
  screen_update_status self [Lit "Error loading clusters: "; Exc e].

Definition fetch_clusters (self : nat) : M unit :=
  try_except
    (x <- fetch_clusters_request self ;; fetch_clusters_apply self x)
    Exception_
    (fetch_clusters_failed self).

(** The same coroutine in two halves: [fetch_clusters_begin] runs until
    the request is out, [fetch_clusters_resume] from the moment the
    response is in. *)
Definition fetch_clusters_begin (self : nat) : M (option exchange) :=
  try_except
    (x <- fetch_clusters_request self ;; ret (Some x))
    Exception_
    (fun e => fetch_clusters_failed self e ;; ret None).

Definition fetch_clusters_resume (self : nat) (pending : option exchange) : M unit :=
  match pending with
  | Some x => try_except (fetch_clusters_apply self x) Exception_ (fetch_clusters_failed self)
  | None => ret tt
  end.

Definition on_mount (self : nat) : M unit := fetch_clusters self.

(** [self.app.pop_screen()] *)
Definition action_back : M unit :=
  fun w =>
    match screen_stack w with
    | [] => (Raise ScreenStackError, w)
    | _ :: below => (Ok tt, set_screen_stack below w)
    end.




End App.

(** The state the application starts in, with the given credentials. *)
Definition initial (public_key private_key : string) : World :=
  mkWorld [Lit "Ready"] "" [] [] None public_key private_key [] [] [].

(** The screen the user is looking at: the project list, or the cluster
    list of the topmost pushed screen. *)
Inductive screen_name : Type :=
| ProjectList
| ClusterList (self : nat).

Definition current_screen (w : World) : screen_name :=
  match screen_stack w with
  | [] => ProjectList
  | self :: _ => ClusterList self
  end.

(** A payload element the cluster constructor accepts: its
    [providerSettings] is absent, falsy, or an object. *)
Definition settings_ok (d : pydict) : bool :=
  match dict_get d "providerSettings" (PDict []) with
  | PDict _ => true
  | v => negb (truthy v)
  end.

(** One provider field of a built cluster, read off the payload. *)
Definition provider_field (d : pydict) (key : string) : pyval :=
  match dict_get d "providerSettings" (PDict []) with
  | PDict ps => dict_get ps key (PStr "Unknown")
  | _ => PStr "Unknown"
  end.

(** The world after [update_status m c] has run on the project list. *)
Definition say (m : message) (c : string) (w : World) : World :=
  add_event (Status m c) (set_status m c w).

(** The rows [update_projects_table] manages to add for the given
    projects, and the exception that stopped it, if one did. *)
Fixpoint table_rows (ps : list ProjectData) : list row * option exn :=
  match ps with
  | [] => ([], None)
  | p :: rest =>
      match created_cell (created p) with
      | Raise e => ([], Some e)
      | Ok date =>
          ([py_or (name p) (PStr "Unnamed Project"); id p; date] :: fst (table_rows rest),
           snd (table_rows rest))
      end
  end.

(** A row that displays a project: its second cell is the project's id. *)
Definition shows (p : ProjectData) (r : row) : Prop :=
  exists date, r = [py_or (name p) (PStr "Unnamed Project"); id p; date].

(** The world once [fetch_projects] has sent its request: the status
    says loading, a client held before is closed and replaced. *)
Definition requested (pk sk : string) (w : World) : World :=
  add_event (Sent (mkRequest GET Groups (pk, sk)))
    (set_api_client (Some (mkAtlasAPI pk sk))
       match api_client w with
       | Some _ => add_event Closed (say [Lit "Loading projects..."] "" w)
       | None => say [Lit "Loading projects..."] "" w
       end).

(** The world once the fetched projects are stored and drawn. *)
Definition loaded (ps : list ProjectData) (w : World) : World :=
  let drawn := set_projects_table (fst (table_rows ps)) (set_projects ps w) in
  let count := Z.of_nat (length ps) in
  match snd (table_rows ps) with
  | None =>
      say [Lit "Successfully loaded "; Num count; Lit " project"; Lit (plural count)]
        "success" drawn
  | Some e => say [Lit "Error: "; Exc e] "error" drawn
  end.

(** The world after [screen_update_status self m] has run on an
    attached screen. *)
Definition say_on (self : nat) (m : message) (w : World) : World :=
  add_event (ClusterStatus self m)
    (set_screens (alter (with_cluster_status m) self (screens w)) w).

(** Every row on display shows one of the stored projects. *)
Definition table_shows_projects (w : World) : Prop :=
  Forall (fun r => exists p, In p (projects w) /\ shows p r) (projects_table w).

(** A computation keeps a relation between the world it starts in and
    the world it leaves, whether it returns or raises. *)
Definition preserves {A : Type} (R : World -> World -> Prop) (m : M A) : Prop :=
  forall w, R w (snd (m w)).

(** Nothing changed outside the screen object [self]: the application's
    own fields, the screen stack and every other screen are as before. *)
Definition outside (self : nat) (w w' : World) : Prop :=
  projects w' = projects w /\
  projects_table w' = projects_table w /\
  status_text w' = status_text w /\
  status_class w' = status_class w /\
  api_client w' = api_client w /\
  screen_stack w' = screen_stack w /\
  forall other, other <> self -> screens w' !! other = screens w !! other.

(** The world once [action_delete] has sent its request for the row
    [project_name], [project_id] under the cursor at [i]. *)
Definition deleting (i : Z) (project_name project_id : pyval) (w : World) : World :=
  add_event
    (Sent (mkRequest DELETE (Group project_id) (public_key w, private_key w)))
    (set_api_client (Some (mkAtlasAPI (public_key w) (private_key w)))
       (say [Lit "Deleting project: "; Val project_name; Lit " - "; Val project_id] ""
          (say [Lit "Deleting project..."; Num i] "" w))).

(** The world after [push_screen project api]. *)
Definition pushed (project : ProjectData) (api : AtlasAPI) (w : World) : World :=
  set_screen_stack (length (screens w) :: screen_stack w)
    (set_screens
       (screens w ++ [mkScreen project api [] [] [Lit "Loading clusters..."] true]) w).

(** The world once [action_cluster] has opened the clusters of the
    project found for a row named [project_name]. *)
Definition opened (project_name : pyval) (project : ProjectData) (w : World) : World :=
  let announced := say [Lit "Opening clusters for: "; Val project_name] "" w in
  match api_client w with
  | Some api => pushed project api announced
  | None =>
      pushed project (mkAtlasAPI (public_key w) (private_key w))
        (set_api_client (Some (mkAtlasAPI (public_key w) (private_key w))) announced)
  end.

(** The stored projects and the rows on display are the same in both
    worlds. *)
Definition same_listing (w w' : World) : Prop :=
  projects w' = projects w /\ projects_table w' = projects_table w.

(** One user event or framework callback, from the screen it can occur
    on: the three keys of the project list, and on a cluster screen its
    mount and the key that goes back. *)
Inductive step (remote : list request -> request -> exchange) : World -> World -> Prop :=
| step_authenticate (w : World) :
    screen_stack w = [] -> step remote w (snd (action_authenticate remote w))
| step_delete (w : World) (cursor_row : option Z) :
    screen_stack w = [] -> step remote w (snd (action_delete remote cursor_row w))
| step_cluster (w : World) (cursor_row : option Z) :
    screen_stack w = [] -> step remote w (snd (action_cluster cursor_row w))
| step_mount (w : World) (self : nat) :
    step remote w (snd (on_mount remote self w))
| step_back (w : World) :
    screen_stack w <> [] -> step remote w (snd (action_back w)).

(** The worlds a session can be in. *)
Inductive reachable (remote : list request -> request -> exchange) : World -> Prop :=
| reachable_initial (pk sk : string) : reachable remote (initial pk sk)
| reachable_step (w w' : World) :
    reachable remote w -> step remote w w' -> reachable remote w'.

(** [ProjectsTable.on_mount] and [ClustersTable.on_mount]: the columns
    each table declares. *)
Definition ProjectsTable_columns : list string :=
  ["Project Name"; "Project ID"; "Created Date"].

Definition ClustersTable_columns : list string :=
  ["Cluster Name"; "Status"; "Provider"; "Region"; "Instance Size"; "MongoDB Version"].

(** How many times a client was closed. *)
Fixpoint closes (l : list event) : nat :=
  match l with
  | [] => O
  | Closed :: rest => S (closes rest)
  | _ :: rest => closes rest
  end.

(** Nothing was sent and the listing is as before. *)
Definition quiet (w w' : World) : Prop :=
  requests (log w') = requests (log w) /\
  projects w' = projects w /\
  projects_table w' = projects_table w.

(** [str.isascii] *)
Fixpoint isascii (s : string) : bool :=
  match s with
  | EmptyString => true
  | String c rest => (N_of_ascii c <? 128)%N && isascii rest
  end.

(** [AtlasAPI.base_url] *)
Definition base_url : string := "https://cloud.mongodb.com/api/atlas/v2".

(** The URL an operation formats, for a project id that is a string. *)
Definition url (r : route) : option string :=
  match r with
  | Groups => Some (base_url ++ "/groups")
  | Group (PStr project_id) => Some (base_url ++ "/groups/" ++ project_id)
  | GroupClusters (PStr project_id) =>
      Some (base_url ++ "/groups/" ++ project_id ++ "/clusters")
  | _ => None
  end.

(** An ASCII control character: what httpx refuses in a URL. *)
Definition is_control (c : ascii) : bool :=
  let n := N_of_ascii c in (n <? 32)%N || (n =? 127)%N.

Fixpoint has_control (s : string) : bool :=
  match s with
  | EmptyString => false
  | String c rest => is_control c || has_control rest
  end.

(** The checks httpx makes on a URL before it sends anything
    ([httpx.InvalidURL] otherwise): at most 65536 characters, none of them
    an ASCII control character.  (A [string] here is a sequence of bytes,
    never fewer than its characters.) *)
Definition accepted_url (u : string) : bool :=
  (Z.of_nat (String.length u) <=? 65536) && negb (has_control u).

(** A route whose URL httpx accepts, so that the request is sent. *)
Definition sendable (r : route) : bool :=
  match url r with
  | Some u => accepted_url u
  | None => false
  end.

(** * Properties *)

Local Open Scope list_scope.

(** ** Dictionaries and record construction *)

Lemma dict_get_absent (d : pydict) (key : string) (default : pyval) :
  dict_lookup d key = None -> dict_get d key default = default.
Proof. unfold dict_get. now intros ->. Qed.

Lemma dict_get_present (d : pydict) (key : string) (default v : pyval) :
  dict_lookup d key = Some v -> dict_get d key default = v.
Proof. unfold dict_get. now intros ->. Qed.

Lemma build_records_map {A : Type} (init : pyval -> result A) (f : pydict -> A)
    (ds : list pydict) :
  (forall d, In d ds -> init (PDict d) = Ok (f d)) ->
  build_records init (map PDict ds) = Ok (map f ds).
Proof.
  induction ds as [|d ds IH]; intros Hinit; simpl.
  - reflexivity.
  - rewrite (Hinit d) by now left.
    rewrite IH by (intros d' Hd'; apply Hinit; now right).
    reflexivity.
Qed.

Lemma ClusterData_init_ok (d : pydict) :
  settings_ok d = true ->
  ClusterData_init (PDict d) =
  Ok {| cl_id := dict_get d "id" (PStr "");
        cl_name := dict_get d "name" (PStr "");
        connection_strings := dict_get d "connectionStrings" (PDict []);
        cluster_type := dict_get d "clusterType" (PStr "");
        mongo_db_version := dict_get d "mongoDBVersion" (PStr "");
        state_name := dict_get d "stateName" (PStr "");
        created_date := dict_get d "createDate" (PStr "");
        provider_settings := dict_get d "providerSettings" (PDict []);
        backup_enabled := dict_get d "backupEnabled" (PBool false);
        encryption_at_rest_provider := dict_get d "encryptionAtRestProvider" (PStr "");
        provider_name := provider_field d "providerName";
        region_name := provider_field d "regionName";
        instance_size_name := provider_field d "instanceSizeName" |}.
Proof.
  unfold settings_ok, provider_field, ClusterData_init.
  destruct (dict_get d "providerSettings" (PDict [])) as [| b | z | f | s | l | ps] eqn:E;
    simpl; intros Hok.
  - reflexivity.
  - apply negb_true_iff in Hok. now rewrite Hok.
  - apply negb_true_iff in Hok. now rewrite Hok.
  - apply negb_true_iff in Hok. now rewrite Hok.
  - apply negb_true_iff in Hok. now rewrite Hok.
  - destruct l; [reflexivity | discriminate].
  - destruct ps; reflexivity.
Qed.

Lemma ClusterData_init_raises (d : pydict) :
  settings_ok d = false ->
  ClusterData_init (PDict d) =
  Raise (AttributeError (type_name (dict_get d "providerSettings" (PDict []))) "get").
Proof.
  unfold settings_ok, ClusterData_init.
  destruct (dict_get d "providerSettings" (PDict [])) as [| b | z | f | s | l | ps] eqn:E;
    simpl; intros Hok; try discriminate.
  - apply negb_false_iff in Hok. now rewrite Hok.
  - apply negb_false_iff in Hok. now rewrite Hok.
  - apply negb_false_iff in Hok. now rewrite Hok.
  - apply negb_false_iff in Hok. now rewrite Hok.
  - destruct l; [discriminate | reflexivity].
Qed.

Lemma list_body_results {A : Type} (init : pyval -> result A) (r : response)
    (d : pydict) :
  is_success r = true ->
  json r = Some (PDict d) ->
  list_body init (Replied r) =
  match py_iter (dict_get d "results" (PList [])) with
  | Raise e => Raise e
  | Ok items => build_records init items
  end.
Proof.
  intros Hs Hj. unfold list_body, raise_for_status, response_json.
  now rewrite Hs, Hj.
Qed.


(** ** The API client *)

(** A body that is JSON but not an object is not translated: the
    [AttributeError] of [data.get] leaves the operation as it is. *)
Example get_projects_of_array_body :
  get_projects_of (Replied (mkResponse 200 (Some (PList [])))) =
  Raise (AttributeError "list" "get").
Proof. reflexivity. Qed.

(** What the two [except] clauses do translate: a failed exchange and a
    status outside 2xx become a plain [Exception] whose message is
    ["API request failed: "] followed by the httpx error, which for a
    status failure is the status error of that very code; in the two list
    operations a 2xx body whose text is not JSON becomes the [Exception]
    ["Invalid JSON response from API"]; the delete operation returns on
    every 2xx response. *)
Lemma failure_translation :
  (forall detail,
      let failed := PyException [Lit "API request failed: "; Exc (TransportError detail)] in
      get_projects_of (Failed detail) = Raise failed /\
      get_clusters_of (Failed detail) = Raise failed /\
      delete_one_project_of (Failed detail) = Raise failed) /\
  (forall r, is_success r = false ->
      let failed :=
        PyException [Lit "API request failed: "; Exc (HTTPStatusError (status_code r))] in
      get_projects_of (Replied r) = Raise failed /\
      get_clusters_of (Replied r) = Raise failed /\
      delete_one_project_of (Replied r) = Raise failed) /\
  (forall r, is_success r = true -> json r = None -> fault r = NotJSON ->
      let invalid := PyException [Lit "Invalid JSON response from API"] in
      get_projects_of (Replied r) = Raise invalid /\
      get_clusters_of (Replied r) = Raise invalid) /\
  (forall r, is_success r = true -> delete_one_project_of (Replied r) = Ok true).
Proof.
  repeat split.
  - unfold get_projects_of, get_clusters_of, delete_one_project_of,
      list_body, raise_for_status; rewrite H; reflexivity.
  - unfold get_projects_of, get_clusters_of, delete_one_project_of,
      list_body, raise_for_status; rewrite H; reflexivity.
  - unfold delete_one_project_of, raise_for_status; rewrite H; reflexivity.
  - unfold get_projects_of, list_body, raise_for_status, response_json.
    rewrite H, H0, H1. reflexivity.
  - unfold get_clusters_of, list_body, raise_for_status, response_json.
    rewrite H, H0, H1. reflexivity.
  - intros r Hs. unfold delete_one_project_of, raise_for_status.
    rewrite Hs. reflexivity.
Qed.

(** C2: the list operations let exceptions through that are none of the
    translated failures.  On a 2xx response whose body is the JSON array
    [[]], or [null], [data.get] raises [AttributeError]; on the object
    [{"results": null}] the loop raises [TypeError]; on a body that is not
    UTF-8 [response.json()] raises [UnicodeDecodeError], which is not the
    [json.JSONDecodeError] the [except] clause names.  Each leaves
    [get_projects] or [get_clusters] as it is, with the request sent, where
    a body that is merely not JSON is translated. *)
Theorem C2_untranslated_exceptions_escape :
  let array := Replied (mkResponse 200 (Some (PList []))) in
  let null := Replied (mkResponse 200 (Some PNone)) in
  let no_list := Replied (mkResponse 200 (Some (PDict [("results", PNone)]))) in
  let not_utf8 := Replied (Response 200 None NotUTF8) in
  let not_json := Replied (Response 200 None NotJSON) in
  let api := mkAtlasAPI "pk" "sk" in
  get_projects_of array = Raise (AttributeError "list" "get") /\
  get_clusters_of null = Raise (AttributeError "NoneType" "get") /\
  get_projects_of no_list = Raise (TypeError "NoneType" "is not iterable") /\
  get_projects_of not_utf8 = Raise UnicodeDecodeError /\
  get_clusters_of not_utf8 = Raise UnicodeDecodeError /\
  get_projects_of not_json = Raise (PyException [Lit "Invalid JSON response from API"]) /\
  get_projects (fun _ _ => array) api (initial "pk" "sk") =
    (Raise (AttributeError "list" "get"),
     add_event (Sent (mkRequest GET Groups ("pk", "sk"))) (initial "pk" "sk")) /\
  fst (get_clusters (fun _ _ => not_utf8) api (PStr "p1") (initial "pk" "sk")) =
    Raise UnicodeDecodeError.
Proof. repeat split. Qed.

(** C3, as stated, fails: a cluster element without [stateName] and
    [mongoDBVersion] is built with the empty string in both fields, not
    with ["Unknown"]. *)
Lemma C3_state_name_default_is_empty :
  exists c,
    get_clusters_of
      (Replied (mkResponse 200 (Some (PDict [("results", PList [PDict []])]))))
    = Ok [c] /\
    state_name c = PStr "" /\ state_name c <> PStr "Unknown" /\
    mongo_db_version c = PStr "" /\ mongo_db_version c <> PStr "Unknown".
Proof.
  eexists. split; [reflexivity|]. simpl. repeat split; discriminate.
Qed.

(** C3, amended: for a 2xx response whose JSON body is an object with a
    [results] array of objects, [get_projects] returns one record per
    element, in the order of the array, an absent [id], [name], [orgId] or
    [created] being the empty string, [clusterCount] 0 and [links] the empty
    list; [get_clusters] does the same when every element's
    [providerSettings] is absent, falsy or an object: absent strings
    ([stateName] and [mongoDBVersion] included) are empty, [backupEnabled]
    is false, and each provider field is ["Unknown"] unless the settings
    object carries its key.  The table rows then show ["Unnamed Project"],
    ["Unnamed Cluster"] and ["Unknown"] in place of a falsy name, state or
    version. *)
Theorem C3_records_in_order (r : response) (d : pydict) (elements : list pydict) :
  is_success r = true ->
  json r = Some (PDict d) ->
  dict_lookup d "results" = Some (PList (map PDict elements)) ->
  get_projects_of (Replied r) =
    Ok (map (fun e =>
          {| id := dict_get e "id" (PStr "");
             name := dict_get e "name" (PStr "");
             org_id := dict_get e "orgId" (PStr "");
             created := dict_get e "created" (PStr "");
             cluster_count := dict_get e "clusterCount" (PInt 0);
             links := dict_get e "links" (PList []) |}) elements) /\
  (forallb settings_ok elements = true ->
   get_clusters_of (Replied r) =
    Ok (map (fun e =>
          {| cl_id := dict_get e "id" (PStr "");
             cl_name := dict_get e "name" (PStr "");
             connection_strings := dict_get e "connectionStrings" (PDict []);
             cluster_type := dict_get e "clusterType" (PStr "");
             mongo_db_version := dict_get e "mongoDBVersion" (PStr "");
             state_name := dict_get e "stateName" (PStr "");
             created_date := dict_get e "createDate" (PStr "");
             provider_settings := dict_get e "providerSettings" (PDict []);
             backup_enabled := dict_get e "backupEnabled" (PBool false);
             encryption_at_rest_provider :=
               dict_get e "encryptionAtRestProvider" (PStr "");
             provider_name := provider_field e "providerName";
             region_name := provider_field e "regionName";
             instance_size_name := provider_field e "instanceSizeName" |}) elements)) /\
  (forall c,
      cluster_row c =
      [py_or (cl_name c) (PStr "Unnamed Cluster"); py_or (state_name c) (PStr "Unknown");
       provider_name c; region_name c; instance_size_name c;
       py_or (mongo_db_version c) (PStr "Unknown")]) /\
  (forall p w date,
      created_cell (created p) = Ok date ->
      project_row p w =
      (Ok [py_or (name p) (PStr "Unnamed Project"); id p; date], w)).
Proof.
  intros Hs Hj Hres.
  split; [|split; [|split]].
  - unfold get_projects_of.
    rewrite (list_body_results _ r d Hs Hj), (dict_get_present _ _ _ _ Hres).
    cbn [py_iter]. erewrite build_records_map; [reflexivity|].
    reflexivity.
  - intros Hok. unfold get_clusters_of.
    rewrite (list_body_results _ r d Hs Hj), (dict_get_present _ _ _ _ Hres).
    cbn [py_iter]. erewrite build_records_map; [reflexivity|].
    intros e He. apply ClusterData_init_ok.
    rewrite forallb_forall in Hok. now apply Hok.
  - reflexivity.
  - intros p w date Hdate. unfold project_row, bind, lift, ret.
    now rewrite Hdate.
Qed.

Lemma C3_records_in_order_witness :
  let first := [("id", PStr "p1"); ("name", PStr "Demo")] in
  let second := [("id", PStr "p2"); ("clusterCount", PInt 3)] in
  let r := mkResponse 200 (Some (PDict [("results", PList (map PDict [first; second]))])) in
  is_success r = true /\
  forallb settings_ok [first; second] = true /\
  get_projects_of (Replied r) =
    Ok [mkProjectData (PStr "p1") (PStr "Demo") (PStr "") (PStr "") (PInt 0) (PList []);
        mkProjectData (PStr "p2") (PStr "") (PStr "") (PStr "") (PInt 3) (PList [])].
Proof.
  intros first second r.
  split; [reflexivity|]. split; [reflexivity|].
  exact (proj1 (C3_records_in_order r
                  [("results", PList (map PDict [first; second]))]
                  [first; second] eq_refl eq_refl eq_refl)).
Defined.

(** C4, as stated, fails: a valid JSON payload that is not an object has
    no [results] key either, and on it both list operations raise the
    [AttributeError] of [data.get] instead of returning the empty list. *)
Lemma C4_payload_not_an_object_raises :
  get_projects_of (Replied (mkResponse 200 (Some (PList [])))) =
    Raise (AttributeError "list" "get") /\
  get_clusters_of (Replied (mkResponse 200 (Some (PList [])))) =
    Raise (AttributeError "list" "get") /\
  get_projects_of (Replied (mkResponse 200 (Some PNone))) =
    Raise (AttributeError "NoneType" "get") /\
  get_clusters_of (Replied (mkResponse 200 (Some (PStr "ok")))) =
    Raise (AttributeError "str" "get").
Proof. repeat split. Qed.

(** C4, amended: a 2xx response whose JSON payload is an object without a
    [results] key makes both list operations return the empty list,
    without raising. *)
Theorem C4_missing_results_is_empty (r : response) (d : pydict) :
  is_success r = true ->
  json r = Some (PDict d) ->
  dict_lookup d "results" = None ->
  get_projects_of (Replied r) = Ok [] /\ get_clusters_of (Replied r) = Ok [].
Proof.
  intros Hs Hj Hres. unfold get_projects_of, get_clusters_of.
  rewrite !(list_body_results _ r d Hs Hj), (dict_get_absent _ _ _ Hres).
  split; reflexivity.
Qed.

Lemma C4_missing_results_is_empty_witness :
  let r := mkResponse 200 (Some (PDict [("totalCount", PInt 0)])) in
  is_success r = true /\
  dict_lookup [("totalCount", PInt 0)] "results" = None /\
  get_projects_of (Replied r) = Ok [] /\ get_clusters_of (Replied r) = Ok [].
Proof.
  intros r. split; [reflexivity|]. split; [reflexivity|].
  exact (C4_missing_results_is_empty r [("totalCount", PInt 0)] eq_refl eq_refl eq_refl).
Defined.

(** C10, as stated, fails: construction raises when [providerSettings]
    holds a non-empty string, which has no [get]. *)
Lemma C10_string_settings_raise :
  ClusterData_init (PDict [("name", PStr "c0"); ("providerSettings", PStr "AWS")]) =
  Raise (AttributeError "str" "get").
Proof. reflexivity. Qed.

(** C10, amended: when [providerSettings] is an object, construction
    succeeds and each of the three provider fields is the value under its
    key, or ["Unknown"] when that key alone is missing; over all payload
    dictionaries, construction succeeds exactly when [providerSettings] is
    absent, falsy or an object, and raises [AttributeError] otherwise. *)
Theorem C10_provider_defaults_per_key (d : pydict) :
  (forall ps, dict_lookup d "providerSettings" = Some (PDict ps) ->
     exists c, ClusterData_init (PDict d) = Ok c /\
       provider_name c = dict_get ps "providerName" (PStr "Unknown") /\
       region_name c = dict_get ps "regionName" (PStr "Unknown") /\
       instance_size_name c = dict_get ps "instanceSizeName" (PStr "Unknown") /\
       (dict_lookup ps "providerName" = None -> provider_name c = PStr "Unknown") /\
       (dict_lookup ps "regionName" = None -> region_name c = PStr "Unknown") /\
       (dict_lookup ps "instanceSizeName" = None ->
        instance_size_name c = PStr "Unknown")) /\
  ((exists c, ClusterData_init (PDict d) = Ok c) <-> settings_ok d = true) /\
  (settings_ok d = false ->
   ClusterData_init (PDict d) =
   Raise (AttributeError (type_name (dict_get d "providerSettings" (PDict []))) "get")).
Proof.
  split; [|split].
  - intros ps Hps.
    assert (Hget : dict_get d "providerSettings" (PDict []) = PDict ps)
      by now apply dict_get_present.
    assert (Hok : settings_ok d = true) by (unfold settings_ok; now rewrite Hget).
    eexists. split; [apply (ClusterData_init_ok d Hok)|].
    unfold provider_field; simpl; rewrite Hget.
    repeat split; try reflexivity; intros Hnone; now apply dict_get_absent.
  - split.
    + intros [c Hc]. destruct (settings_ok d) eqn:Hok; [reflexivity|].
      rewrite (ClusterData_init_raises d Hok) in Hc. discriminate.
    + intros Hok. eexists. apply (ClusterData_init_ok d Hok).
  - apply ClusterData_init_raises.
Qed.

Lemma C10_provider_defaults_per_key_witness :
  let d := [("name", PStr "c0"); ("providerSettings", PDict [("regionName", PStr "EU_WEST_1")])] in
  exists c, ClusterData_init (PDict d) = Ok c /\
    provider_name c = PStr "Unknown" /\
    region_name c = PStr "EU_WEST_1" /\
    instance_size_name c = PStr "Unknown".
Proof.
  intros d.
  destruct (proj1 (C10_provider_defaults_per_key d) [("regionName", PStr "EU_WEST_1")] eq_refl)
    as (c & Hc & Hp & Hr & Hi & _).
  exists c. repeat split; assumption.
Defined.

(** ** Running the application on the project list *)

Lemma requests_app (l l' : list event) :
  requests (l ++ l') = requests l ++ requests l'.
Proof.
  induction l as [|[r| |m c|s m] l IH]; simpl; rewrite ?IH; reflexivity.
Qed.

Lemma requests_snoc_status (l : list event) (m : message) (c : string) :
  requests (l ++ [Status m c]) = requests l.
Proof. rewrite requests_app. simpl. apply app_nil_r. Qed.

Lemma requests_snoc_closed (l : list event) : requests (l ++ [Closed]) = requests l.
Proof. rewrite requests_app. simpl. apply app_nil_r. Qed.

Lemma requests_snoc_cluster_status (l : list event) (self : nat) (m : message) :
  requests (l ++ [ClusterStatus self m]) = requests l.
Proof. rewrite requests_app. simpl. apply app_nil_r. Qed.

Lemma requests_snoc_sent (l : list event) (r : request) :
  requests (l ++ [Sent r]) = requests l ++ [r].
Proof. rewrite requests_app. reflexivity. Qed.

Lemma update_status_run (m : message) (c : string) (w : World) :
  screen_stack w = [] -> update_status m c w = (Ok tt, say m c w).
Proof.
  intros Hs. unfold update_status, query_one, bind, modify. now rewrite Hs.
Qed.

Lemma for_each_rows (ps : list ProjectData) (w : World) :
  for_each ps (fun project => r <- project_row project ;; add_row r) w =
  (match snd (table_rows ps) with None => Ok tt | Some e => Raise e end,
   set_projects_table (projects_table w ++ fst (table_rows ps)) w).
Proof.
  revert w. induction ps as [|p ps IH]; intros w; simpl.
  - unfold ret. rewrite app_nil_r. now destruct w.
  - unfold bind, project_row, lift, bind.
    destruct (created_cell (created p)) as [date|e]; simpl.
    + unfold add_row, modify, ret. rewrite IH. simpl.
      rewrite <- app_assoc. reflexivity.
    + rewrite app_nil_r. now destruct w.
Qed.

Lemma update_projects_table_run (w : World) :
  screen_stack w = [] ->
  update_projects_table w =
  (match snd (table_rows (projects w)) with None => Ok tt | Some e => Raise e end,
   set_projects_table (fst (table_rows (projects w))) w).
Proof.
  intros Hs. unfold update_projects_table, query_one, bind at 1.
  rewrite Hs. unfold bind at 1, modify. unfold bind at 1, gets.
  rewrite for_each_rows. reflexivity.
Qed.

Section Run.

Variable remote : list request -> request -> exchange.

Lemma fetch_projects_run (pk sk : string) (w : World) :
  screen_stack w = [] ->
  fetch_projects remote pk sk w =
  (Ok tt,
   match get_projects_of (remote (requests (log w)) (mkRequest GET Groups (pk, sk))) with
   | Ok ps => loaded ps (requested pk sk w)
   | Raise e => say [Lit "Error: "; Exc e] "error" (requested pk sk w)
   end).
Proof.
  intros Hs. unfold fetch_projects, requested.
  unfold bind at 1. rewrite (update_status_run _ _ w Hs).
  unfold try_except, get_projects, send, lift, auth_of, gets, modify, ret, bind.
  cbn -[update_status update_projects_table get_projects_of requests].
  destruct (api_client w);
    cbn -[update_status update_projects_table get_projects_of requests];
    rewrite ?requests_snoc_closed, ?requests_snoc_status;
    (destruct (get_projects_of _) as [ps|e];
     [ rewrite update_projects_table_run by exact Hs;
       cbn -[update_status table_rows]; unfold loaded;
       destruct (snd (table_rows ps)); cbn -[update_status table_rows];
       rewrite update_status_run by exact Hs; reflexivity
     | cbn -[update_status]; rewrite update_status_run by exact Hs; reflexivity ]).
Qed.

Lemma action_authenticate_run (w : World) :
  screen_stack w = [] ->
  action_authenticate remote w =
  (Ok tt,
   let started := say [Lit "Authenticating..."] "" w in
   match
     get_projects_of
       (remote (requests (log w)) (mkRequest GET Groups (public_key w, private_key w)))
   with
   | Ok ps => loaded ps (requested (public_key w) (private_key w) started)
   | Raise e =>
       say [Lit "Error: "; Exc e] "error"
         (requested (public_key w) (private_key w) started)
   end).
Proof.
  intros Hs. unfold action_authenticate.
  unfold bind at 1. rewrite (update_status_run _ _ w Hs).
  unfold bind, gets. cbn -[fetch_projects get_projects_of requests loaded requested].
  rewrite fetch_projects_run by exact Hs.
  cbn -[get_projects_of requests loaded requested].
  now rewrite requests_snoc_status.
Qed.

End Run.

Lemma requested_frame (pk sk : string) (w : World) :
  projects (requested pk sk w) = projects w /\
  projects_table (requested pk sk w) = projects_table w /\
  screens (requested pk sk w) = screens w /\
  screen_stack (requested pk sk w) = screen_stack w.
Proof. unfold requested. destruct (api_client w); repeat split; reflexivity. Qed.

Lemma requested_log (pk sk : string) (w : World) :
  exists closing,
    log (requested pk sk w) =
    log w ++ [Status [Lit "Loading projects..."] ""] ++ closing
          ++ [Sent (mkRequest GET Groups (pk, sk))] /\
    requests closing = [].
Proof.
  unfold requested. destruct (api_client w).
  - exists [Closed]. split; [|reflexivity]. simpl. now rewrite <- !app_assoc.
  - exists []. split; [|reflexivity]. simpl. now rewrite <- !app_assoc.
Qed.

Lemma loaded_log (ps : list ProjectData) (w : World) :
  exists m c, log (loaded ps w) = log w ++ [Status m c].
Proof.
  unfold loaded. destruct (snd (table_rows ps)); simpl; eauto.
Qed.

Lemma loaded_listing (ps : list ProjectData) (w : World) :
  projects (loaded ps w) = ps /\ projects_table (loaded ps w) = fst (table_rows ps).
Proof. unfold loaded. destruct (snd (table_rows ps)); split; reflexivity. Qed.

Lemma loaded_table_shows_projects (ps : list ProjectData) (w : World) :
  Forall (fun r => exists p, In p ps /\ shows p r) (fst (table_rows ps)) ->
  table_shows_projects (loaded ps w).
Proof.
  intros Hrows. unfold table_shows_projects.
  destruct (loaded_listing ps w) as [-> ->]. exact Hrows.
Qed.

Lemma failed_table_shows_projects (m : message) (c : string) (pk sk : string)
    (w : World) :
  table_shows_projects w -> table_shows_projects (say m c (requested pk sk w)).
Proof.
  intros Hinv. unfold table_shows_projects.
  change (projects (say m c (requested pk sk w))) with (projects (requested pk sk w)).
  change (projects_table (say m c (requested pk sk w)))
    with (projects_table (requested pk sk w)).
  destruct (requested_frame pk sk w) as (-> & -> & _). exact Hinv.
Qed.

(** C5: when [get_projects] fails during the authenticate action, for any
    reason it can fail, the action ends with a status of class [error]
    and the stored projects are the ones stored before. *)
Theorem C5_failed_fetch_keeps_projects
    (remote : list request -> request -> exchange) (w : World) (e : exn) :
  screen_stack w = [] ->
  get_projects_of
    (remote (requests (log w)) (mkRequest GET Groups (public_key w, private_key w)))
  = Raise e ->
  fst (action_authenticate remote w) = Ok tt /\
  status_class (snd (action_authenticate remote w)) = "error" /\
  status_text (snd (action_authenticate remote w)) = [Lit "Error: "; Exc e] /\
  projects (snd (action_authenticate remote w)) = projects w.
Proof.
  intros Hs Hfail. rewrite (action_authenticate_run remote w Hs).
  cbv zeta. rewrite Hfail. repeat split.
  cbn [snd say projects add_event set_status].
  now rewrite (proj1 (requested_frame _ _ _)).
Qed.

Lemma C5_failed_fetch_keeps_projects_witness :
  let timeout := fun (_ : list request) (_ : request) => Failed "timed out" in
  let out := action_authenticate timeout (initial "pk" "sk") in
  projects (initial "pk" "sk") = [] /\
  status_class (snd out) = "error" /\
  projects (snd out) = [].
Proof.
  intros timeout out.
  destruct (C5_failed_fetch_keeps_projects timeout (initial "pk" "sk")
              (PyException [Lit "API request failed: "; Exc (TransportError "timed out")])
              eq_refl eq_refl) as (_ & Hclass & _ & Hprojects).
  split; [reflexivity|]. split; assumption.
Defined.

(** C9: a project named "Demo" created at "2024-01-05T10:00:00Z" is drawn
    as the row "Demo", its id, "05-Jan-2024 10:00"; when [get_projects]
    returns that one project, the table after the authenticate action is
    that row. *)
Theorem C9_demo_row
    (remote : list request -> request -> exchange) (w : World) (p : ProjectData) :
  name p = PStr "Demo" ->
  created p = PStr "2024-01-05T10:00:00Z" ->
  project_row p w = (Ok [PStr "Demo"; id p; PStr "05-Jan-2024 10:00"], w) /\
  (screen_stack w = [] ->
   get_projects_of
     (remote (requests (log w)) (mkRequest GET Groups (public_key w, private_key w)))
   = Ok [p] ->
   projects_table (snd (action_authenticate remote w)) =
     [[PStr "Demo"; id p; PStr "05-Jan-2024 10:00"]] /\
   status_class (snd (action_authenticate remote w)) = "success").
Proof.
  intros Hname Hcreated. split.
  - unfold project_row, bind, lift, ret. rewrite Hcreated, Hname. reflexivity.
  - intros Hs Hget. rewrite (action_authenticate_run remote w Hs).
    cbv zeta. rewrite Hget. unfold loaded.
    cbn [table_rows]. rewrite Hcreated, Hname. split; reflexivity.
Qed.

Lemma C9_demo_row_witness :
  let body :=
    PDict [("results",
            PList [PDict [("id", PStr "p1"); ("name", PStr "Demo");
                          ("created", PStr "2024-01-05T10:00:00Z")]])] in
  let remote := fun (_ : list request) (_ : request) =>
    Replied (mkResponse 200 (Some body)) in
  projects_table (snd (action_authenticate remote (initial "pk" "sk"))) =
  [[PStr "Demo"; PStr "p1"; PStr "05-Jan-2024 10:00"]].
Proof.
  intros body remote.
  exact (proj1 (proj2 (C9_demo_row remote (initial "pk" "sk")
    (mkProjectData (PStr "p1") (PStr "Demo") (PStr "") (PStr "2024-01-05T10:00:00Z")
       (PInt 0) (PList []))
    eq_refl eq_refl) eq_refl eq_refl)).
Defined.

Lemma get_row_at_run (i : Z) (w : World) (r : row) :
  0 <= i -> projects_table w !! Z.to_nat i = Some r -> get_row_at i w = (Ok r, w).
Proof.
  intros Hi Hr. unfold get_row_at. rewrite Hr.
  apply lookup_lt_Some in Hr.
  replace (0 <=? i) with true by (symmetry; apply Z.leb_le; lia).
  replace (i <? Z.of_nat (length (projects_table w))) with true
    by (symmetry; apply Z.ltb_lt; lia).
  reflexivity.
Qed.

Lemma get_row_at_beyond (i : Z) (w : World) :
  Z.of_nat (length (projects_table w)) <= i ->
  get_row_at i w = (Raise (RowDoesNotExist i), w).
Proof.
  intros Hi. unfold get_row_at.
  replace (i <? Z.of_nat (length (projects_table w))) with false
    by (symmetry; apply Z.ltb_ge; lia).
  now rewrite andb_false_r.
Qed.

Lemma item_run (r : row) (k : nat) (v : pyval) (w : World) :
  r !! k = Some v -> item r k w = (Ok v, w).
Proof. unfold item. now intros ->. Qed.

Lemma delete_raises_plain_exception (x : exchange) (e : exn) :
  delete_one_project_of x = Raise e -> IndexError_StopIteration e = false.
Proof.
  unfold delete_one_project_of, raise_for_status.
  destruct x as [detail | r]; simpl.
  - intros [= <-]. reflexivity.
  - destruct (is_success r); simpl; [discriminate|]. intros [= <-]. reflexivity.
Qed.

Lemma delete_returns_true (x : exchange) (b : bool) :
  delete_one_project_of x = Ok b -> b = true.
Proof.
  unfold delete_one_project_of.
  destruct (translate _); [now intros [= <-] | discriminate].
Qed.

Section RunDelete.

Variable remote : list request -> request -> exchange.

Lemma action_delete_run (w : World) (i : Z) (r : row) (project_name project_id : pyval) :
  screen_stack w = [] ->
  0 <= i ->
  projects_table w !! Z.to_nat i = Some r ->
  r !! 0%nat = Some project_name ->
  r !! 1%nat = Some project_id ->
  action_delete remote (Some i) w =
  match
    delete_one_project_of
      (remote (requests (log w))
         (mkRequest DELETE (Group project_id) (public_key w, private_key w)))
  with
  | Ok _ =>
      fetch_projects remote (public_key w) (private_key w)
        (say [Lit "Project deleted: "; Val project_name; Lit " - "; Val project_id]
           "success" (deleting i project_name project_id w))
  | Raise e => (Raise e, deleting i project_name project_id w)
  end.
Proof.
  intros Hs Hi Hr Hname Hid. unfold action_delete.
  unfold bind at 1, query_one at 1. rewrite Hs.
  replace (i <? 0) with false by (symmetry; apply Z.ltb_ge; lia).
  unfold try_except.
  unfold bind at 1. rewrite (update_status_run _ _ w Hs).
  unfold bind at 1. rewrite (get_row_at_run i _ r Hi) by exact Hr.
  unfold bind at 1. rewrite (item_run r 0 project_name) by exact Hname.
  unfold bind at 1. rewrite (item_run r 1 project_id) by exact Hid.
  unfold bind at 1. rewrite update_status_run by exact Hs.
  unfold delete_one_project, send, lift, auth_of, gets, modify, bind.
  cbn -[update_status fetch_projects delete_one_project_of requests].
  rewrite !requests_snoc_status.
  destruct (delete_one_project_of _) as [b|e] eqn:Hdel.
  - rewrite update_status_run by exact Hs.
    unfold deleting. rewrite !fetch_projects_run by exact Hs. reflexivity.
  - rewrite (delete_raises_plain_exception _ _ Hdel). reflexivity.
Qed.

End RunDelete.

Lemma fetch_projects_log
    (remote : list request -> request -> exchange) (pk sk : string) (w : World) :
  screen_stack w = [] ->
  exists tail,
    log (snd (fetch_projects remote pk sk w)) = log w ++ tail /\
    requests tail = [mkRequest GET Groups (pk, sk)].
Proof.
  intros Hs. rewrite (fetch_projects_run remote pk sk w Hs). cbn [snd].
  destruct (requested_log pk sk w) as (closing & Hlog & Hclosing).
  assert (Htail : forall m c,
    requests ([Status [Lit "Loading projects..."] ""] ++ closing
              ++ [Sent (mkRequest GET Groups (pk, sk))] ++ [Status m c])
    = [mkRequest GET Groups (pk, sk)]).
  { intros m c. cbn [app requests]. rewrite requests_app, Hclosing. reflexivity. }
  destruct (get_projects_of _) as [ps|e].
  - destruct (loaded_log ps (requested pk sk w)) as (m & c & Hloaded).
    eexists. split; [|apply (Htail m c)].
    rewrite Hloaded, Hlog. now rewrite <- !app_assoc.
  - eexists. split; [|apply (Htail [Lit "Error: "; Exc e] "error")].
    cbn [say log add_event set_status]. rewrite Hlog. now rewrite <- !app_assoc.
Qed.

Lemma fetch_projects_returns
    (remote : list request -> request -> exchange) (pk sk : string) (w : World) :
  screen_stack w = [] -> fst (fetch_projects remote pk sk w) = Ok tt.
Proof. intros Hs. now rewrite (fetch_projects_run remote pk sk w Hs). Qed.

(** C8: with a row under the cursor, a delete that succeeds logs the
    success status and then issues [GET /groups] exactly once, no other
    request following; a delete that fails leaves the stored projects and
    the table as they were, and sends nothing after the failed request. *)
Theorem C8_delete_then_reload
    (remote : list request -> request -> exchange) (w : World) (i : Z)
    (r : row) (project_name project_id : pyval) :
  screen_stack w = [] ->
  0 <= i ->
  projects_table w !! Z.to_nat i = Some r ->
  r !! 0%nat = Some project_name ->
  r !! 1%nat = Some project_id ->
  let delete := mkRequest DELETE (Group project_id) (public_key w, private_key w) in
  let reload := mkRequest GET Groups (public_key w, private_key w) in
  let out := action_delete remote (Some i) w in
  (delete_one_project_of (remote (requests (log w)) delete) = Ok true ->
   fst out = Ok tt /\
   (exists before after,
      log (snd out) =
      log w ++ before
        ++ [Sent delete;
            Status [Lit "Project deleted: "; Val project_name; Lit " - "; Val project_id]
              "success"]
        ++ after /\
      requests before = [] /\
      requests after = [reload]) /\
   list_projects_calls (snd out) = S (list_projects_calls w)) /\
  (forall e,
     delete_one_project_of (remote (requests (log w)) delete) = Raise e ->
     fst out = Raise e /\
     projects (snd out) = projects w /\
     projects_table (snd out) = projects_table w /\
     requests (log (snd out)) = requests (log w) ++ [delete]).
Proof.
  intros Hs Hi Hr Hname Hid delete reload out. subst out.
  rewrite (action_delete_run remote w i r project_name project_id Hs Hi Hr Hname Hid).
  fold delete. split.
  - intros ->.
    set (w1 := say _ "success" _).
    assert (Hs1 : screen_stack w1 = []) by exact Hs.
    destruct (fetch_projects_log remote (public_key w) (private_key w) w1 Hs1)
      as (tail & Hlog & Htail).
    assert (Hlog1 : log w1 =
      log w ++ [Status [Lit "Deleting project..."; Num i] "";
                Status [Lit "Deleting project: "; Val project_name; Lit " - ";
                        Val project_id] ""]
        ++ [Sent delete;
            Status [Lit "Project deleted: "; Val project_name; Lit " - "; Val project_id]
              "success"]).
    { subst w1. cbn [say deleting log add_event set_status set_api_client].
      now rewrite <- !app_assoc. }
    split; [apply fetch_projects_returns, Hs1|]. split.
    + exists [Status [Lit "Deleting project..."; Num i] "";
              Status [Lit "Deleting project: "; Val project_name; Lit " - ";
                      Val project_id] ""], tail.
      split; [|split; [|exact Htail]].
      * rewrite Hlog, Hlog1. now rewrite <- !app_assoc.
      * reflexivity.
    + unfold list_projects_calls. rewrite Hlog, Hlog1.
      rewrite !requests_app, Htail. cbn [requests app].
      rewrite !List.filter_app, !length_app. cbn. lia.
  - intros e ->. cbn [fst snd]. repeat split.
    unfold deleting. cbn [say log add_event set_status set_api_client].
    now rewrite requests_snoc_sent, !requests_snoc_status.
Qed.

Lemma C8_delete_then_reload_witness :
  let body :=
    PDict [("results", PList [PDict [("id", PStr "p1"); ("name", PStr "Demo")]])] in
  let remote := fun (_ : list request) (r : request) =>
    match req_method r with
    | DELETE => Replied (mkResponse 204 None)
    | GET => Replied (mkResponse 200 (Some body))
    end in
  let w := snd (action_authenticate remote (initial "pk" "sk")) in
  list_projects_calls w = 1%nat /\
  fst (action_delete remote (Some 0) w) = Ok tt /\
  list_projects_calls (snd (action_delete remote (Some 0) w)) = 2%nat.
Proof.
  intros body remote w. split; [reflexivity|].
  destruct (C8_delete_then_reload remote w 0 [PStr "Demo"; PStr "p1"; PStr "N/A"]
              (PStr "Demo") (PStr "p1") eq_refl (Z.le_refl 0) eq_refl eq_refl eq_refl)
    as [Hdeleted _].
  destruct (Hdeleted eq_refl) as (Hreturns & _ & Hcalls).
  split; [exact Hreturns | exact Hcalls].
Defined.

(** ** Opening the clusters of a project *)

Lemma py_eq_str (a : pyval) (s : string) : py_eq a (PStr s) = true -> a = PStr s.
Proof.
  destruct a; simpl; try discriminate.
  intros H. apply String.eqb_eq in H. now subst.
Qed.

Lemma find_project_found (project_id : pyval) (ps : list ProjectData) (p : ProjectData) :
  In p ps -> py_eq (id p) project_id = true ->
  exists q, find_project project_id ps = Some q /\
    In q ps /\ py_eq (id q) project_id = true.
Proof.
  intros Hin Heq. unfold find_project.
  destruct (List.find _ ps) as [q|] eqn:Hfind.
  - exists q. apply List.find_some in Hfind. tauto.
  - apply (List.find_none _ _ Hfind) in Hin. simpl in Hin. congruence.
Qed.

Lemma action_cluster_unselected (cursor_row : option Z) (w : World) :
  screen_stack w = [] ->
  cursor_row = None \/ (exists i, cursor_row = Some i /\ i < 0) ->
  action_cluster cursor_row w =
  (Ok tt, say [Lit "Please select a project to view clusters"] "" w).
Proof.
  intros Hs Hc. unfold action_cluster, bind at 1, query_one at 1. rewrite Hs.
  destruct Hc as [-> | (i & -> & Hi)].
  - now apply update_status_run.
  - replace (i <? 0) with true by (symmetry; apply Z.ltb_lt; lia).
    now apply update_status_run.
Qed.

Lemma action_cluster_beyond (i : Z) (w : World) :
  screen_stack w = [] ->
  0 <= i ->
  Z.of_nat (length (projects_table w)) <= i ->
  action_cluster (Some i) w =
  (Ok tt, say [Lit "Error viewing clusters: "; Exc (RowDoesNotExist i)] "error" w).
Proof.
  intros Hs Hi Hlen. unfold action_cluster, bind at 1, query_one at 1. rewrite Hs.
  replace (i <? 0) with false by (symmetry; apply Z.ltb_ge; lia).
  unfold try_except, bind at 1. rewrite (get_row_at_beyond i w Hlen).
  now apply update_status_run.
Qed.

Lemma action_cluster_found (i : Z) (w : World) (r : row)
    (project_name project_id : pyval) (p : ProjectData) :
  screen_stack w = [] ->
  0 <= i ->
  projects_table w !! Z.to_nat i = Some r ->
  r !! 0%nat = Some project_name ->
  r !! 1%nat = Some project_id ->
  find_project project_id (projects w) = Some p ->
  action_cluster (Some i) w = (Ok tt, opened project_name p w).
Proof.
  intros Hs Hi Hr Hname Hid Hfind.
  unfold action_cluster, bind at 1, query_one at 1. rewrite Hs.
  replace (i <? 0) with false by (symmetry; apply Z.ltb_ge; lia).
  unfold try_except.
  unfold bind at 1. rewrite (get_row_at_run i _ r Hi) by exact Hr.
  unfold bind at 1. rewrite (item_run r 0 project_name) by exact Hname.
  unfold bind at 1. rewrite (item_run r 1 project_id) by exact Hid.
  unfold bind at 1, gets at 1. rewrite Hfind.
  unfold bind at 1. rewrite update_status_run by exact Hs.
  unfold opened, push_screen, gets, modify, ret, bind.
  cbn [api_client say add_event set_status].
  destruct (api_client w); reflexivity.
Qed.

(** ** Relations kept by every computation built from kept steps *)

Section Preserves.

Variable R : World -> World -> Prop.
Hypothesis R_refl : forall w, R w w.
Hypothesis R_trans : forall w1 w2 w3, R w1 w2 -> R w2 w3 -> R w1 w3.

Lemma preserves_same {A : Type} (m : M A) :
  (forall w, snd (m w) = w) -> preserves R m.
Proof. intros Hm w. rewrite Hm. apply R_refl. Qed.

Lemma preserves_ret {A : Type} (a : A) : preserves R (ret a).
Proof. now apply preserves_same. Qed.

Lemma preserves_raise {A : Type} (e : exn) : preserves R (@raise A e).
Proof. now apply preserves_same. Qed.

Lemma preserves_lift {A : Type} (r : result A) : preserves R (lift r).
Proof. now apply preserves_same. Qed.

Lemma preserves_gets {A : Type} (f : World -> A) : preserves R (gets f).
Proof. now apply preserves_same. Qed.

Lemma preserves_modify (f : World -> World) :
  (forall w, R w (f w)) -> preserves R (modify f).
Proof. intros Hf w. apply Hf. Qed.

Lemma preserves_bind {A B : Type} (m : M A) (k : A -> M B) :
  preserves R m -> (forall a, preserves R (k a)) -> preserves R (bind m k).
Proof.
  intros Hm Hk w. unfold bind. specialize (Hm w).
  destruct (m w) as [[a|e] w1]; simpl in *.
  - apply (R_trans _ _ _ Hm), Hk.
  - exact Hm.
Qed.

Lemma preserves_try_except {A : Type} (body : M A) (classes : exn -> bool)
    (handler : exn -> M A) :
  preserves R body -> (forall e, preserves R (handler e)) ->
  preserves R (try_except body classes handler).
Proof.
  intros Hb Hh w. unfold try_except. specialize (Hb w).
  destruct (body w) as [[a|e] w1]; simpl in *.
  - exact Hb.
  - destruct (classes e); [|exact Hb]. apply (R_trans _ _ _ Hb), Hh.
Qed.

Lemma preserves_for_each {A : Type} (xs : list A) (body : A -> M unit) :
  (forall x, preserves R (body x)) -> preserves R (for_each xs body).
Proof.
  intros Hb. induction xs as [|x xs IH]; simpl.
  - apply preserves_ret.
  - apply preserves_bind; [apply Hb | intros _; exact IH].
Qed.

(** *** Steps of a cluster screen *)

Variable self : nat.

(** A change to the screen object that the relation tolerates. *)
Variable tolerated : (ClusterViewScreen -> ClusterViewScreen) -> Prop.

Hypothesis R_event : forall e w, R w (add_event e w).
Hypothesis R_screen :
  forall f w, tolerated f -> R w (set_screens (alter f self (screens w)) w).
Hypothesis tolerated_status : forall m, tolerated (with_cluster_status m).
Hypothesis tolerated_table :
  forall t, tolerated (fun s => with_clusters_table (t s) s).

Lemma preserves_modify_screen (f : ClusterViewScreen -> ClusterViewScreen) :
  tolerated f -> preserves R (modify_screen self f).
Proof. intros Hf w. now apply R_screen. Qed.

Lemma preserves_get_screen : preserves R (get_screen self).
Proof.
  apply preserves_same. intros w. unfold get_screen.
  now destruct (screens w !! self).
Qed.

Lemma preserves_screen_query_one (selector : string) :
  preserves R (screen_query_one self selector).
Proof.
  apply preserves_bind; [apply preserves_get_screen|].
  intros s. destruct (attached s); [apply preserves_ret | apply preserves_raise].
Qed.

Lemma preserves_screen_update_status (m : message) :
  preserves R (screen_update_status self m).
Proof.
  apply preserves_bind; [apply preserves_screen_query_one | intros _].
  apply preserves_bind; [apply preserves_modify_screen, tolerated_status | intros _].
  apply preserves_modify, R_event.
Qed.

Lemma preserves_update_clusters_table : preserves R (update_clusters_table self).
Proof.
  apply preserves_bind; [apply preserves_screen_query_one | intros _].
  apply preserves_bind;
    [apply preserves_modify_screen, (tolerated_table (fun _ => [])) | intros _].
  apply preserves_bind; [apply preserves_get_screen | intros s].
  apply preserves_for_each. intros cluster.
  apply preserves_modify_screen,
    (tolerated_table (fun s => clusters_table s ++ [cluster_row cluster])).
Qed.

Lemma preserves_fetch_clusters_failed (e : exn) :
  preserves R (fetch_clusters_failed self e).
Proof. apply preserves_screen_update_status. Qed.

(** What follows the assignment [self.clusters = clusters]. *)
Lemma preserves_after_assignment (m : message) :
  preserves R (update_clusters_table self ;; screen_update_status self m).
Proof.
  apply preserves_bind; [apply preserves_update_clusters_table | intros _].
  apply preserves_screen_update_status.
Qed.

End Preserves.

(** ** What a cluster screen touches *)

Lemma outside_refl (self : nat) (w : World) : outside self w w.
Proof. repeat split. Qed.

Lemma outside_trans (self : nat) (w1 w2 w3 : World) :
  outside self w1 w2 -> outside self w2 w3 -> outside self w1 w3.
Proof.
  intros (H1 & H2 & H3 & H4 & H5 & H6 & H7) (K1 & K2 & K3 & K4 & K5 & K6 & K7).
  repeat split; try congruence.
  intros other Hother. now rewrite K7, H7.
Qed.

Lemma outside_event (self : nat) (e : event) (w : World) :
  outside self w (add_event e w).
Proof. repeat split. Qed.

Lemma outside_screen (self : nat) (f : ClusterViewScreen -> ClusterViewScreen)
    (w : World) :
  outside self w (set_screens (alter f self (screens w)) w).
Proof.
  repeat split. intros other Hother. cbn [screens set_screens].
  apply list_lookup_alter_ne. congruence.
Qed.

Lemma preserves_send (R : World -> World -> Prop)
    (remote : list request -> request -> exchange) (req : request) :
  (forall e w, R w (add_event e w)) -> preserves R (send remote req).
Proof. intros HR w. apply HR. Qed.

Section ClusterScreen.

Variable remote : list request -> request -> exchange.
Variable self : nat.

(** Any relation that tolerates log events and the screen's own status
    and table updates is kept by the request half of [fetch_clusters]. *)
Lemma preserves_fetch_clusters_begin (R : World -> World -> Prop)
    (tolerated : (ClusterViewScreen -> ClusterViewScreen) -> Prop) :
  (forall w, R w w) ->
  (forall w1 w2 w3, R w1 w2 -> R w2 w3 -> R w1 w3) ->
  (forall e w, R w (add_event e w)) ->
  (forall f w, tolerated f -> R w (set_screens (alter f self (screens w)) w)) ->
  (forall m, tolerated (with_cluster_status m)) ->
  preserves R (fetch_clusters_begin remote self).
Proof.
  intros Hrefl Htrans Hevent Hscreen Hstatus.
  apply preserves_try_except; [exact Htrans | |].
  - apply preserves_bind; [exact Htrans | | intros x; now apply preserves_ret].
    apply preserves_bind; [exact Htrans | | intros _].
    + now apply (preserves_screen_update_status R Hrefl Htrans self tolerated).
    + apply preserves_bind; [exact Htrans | | intros s; now apply preserves_send].
      now apply preserves_get_screen.
  - intros e. apply preserves_bind; [exact Htrans | | intros _; now apply preserves_ret].
    now apply (preserves_fetch_clusters_failed R Hrefl Htrans self tolerated).
Qed.

Lemma fetch_clusters_resume_outside (pending : option exchange) :
  preserves (outside self) (fetch_clusters_resume self pending).
Proof.
  destruct pending as [x|]; [|apply preserves_ret, outside_refl].
  apply preserves_try_except; [apply outside_trans | |].
  - apply preserves_bind; [apply outside_trans | | intros cs].
    + apply preserves_lift, outside_refl.
    + apply preserves_bind; [apply outside_trans | | intros _].
      * intros w. apply outside_screen.
      * apply (preserves_after_assignment (outside self) (outside_refl self)
                 (outside_trans self) self (fun _ => True));
          auto using outside_event, outside_screen.
  - intros e.
    apply (preserves_fetch_clusters_failed (outside self) (outside_refl self)
             (outside_trans self) self (fun _ => True));
      auto using outside_event, outside_screen.
Qed.

End ClusterScreen.

Section ClusterScreenRuns.

Variable remote : list request -> request -> exchange.
Variable self : nat.

Lemma screen_update_status_run (m : message) (w : World) (s : ClusterViewScreen) :
  screens w !! self = Some s ->
  attached s = true ->
  screen_update_status self m w = (Ok tt, say_on self m w).
Proof.
  intros Hs Ha.
  unfold screen_update_status, screen_query_one, get_screen, modify_screen, modify, bind.
  now rewrite Hs, Ha.
Qed.

Lemma say_on_lookup (m : message) (w : World) (s : ClusterViewScreen) :
  screens w !! self = Some s ->
  screens (say_on self m w) !! self = Some (with_cluster_status m s).
Proof.
  intros Hs. unfold say_on. cbn [screens add_event set_screens].
  now rewrite list_lookup_alter_eq, Hs.
Qed.

(** The coroutine and its two halves agree when nothing runs in
    between. *)
Lemma fetch_clusters_cut (w : World) :
  fetch_clusters remote self w =
  (pending <- fetch_clusters_begin remote self ;; fetch_clusters_resume self pending) w.
Proof.
  unfold fetch_clusters, fetch_clusters_begin, fetch_clusters_resume, try_except, bind, ret.
  destruct (fetch_clusters_request remote self w) as [[x|e] w1]; simpl.
  - reflexivity.
  - destruct (fetch_clusters_failed self e w1) as [[[]|e'] w2]; reflexivity.
Qed.

Lemma on_mount_failed (w : World) (s : ClusterViewScreen) (e : exn) :
  screens w !! self = Some s ->
  attached s = true ->
  let req :=
    mkRequest GET (GroupClusters (id (project_data s))) (auth_of (scr_api_client s)) in
  get_clusters_of (remote (requests (log w)) req) = Raise e ->
  on_mount remote self w =
  (Ok tt,
   say_on self [Lit "Error loading clusters: "; Exc e]
     (add_event (Sent req) (say_on self [Lit "Loading clusters..."] w))).
Proof.
  intros Hs Ha req Hfail.
  unfold on_mount, fetch_clusters, try_except, fetch_clusters_request.
  unfold bind at 1. unfold bind at 1.
  rewrite (screen_update_status_run _ w s Hs Ha).
  pose proof (say_on_lookup [Lit "Loading clusters..."] w s Hs) as Hs1.
  unfold bind at 1, get_screen at 1. rewrite Hs1.
  unfold send. cbn [project_data scr_api_client with_cluster_status].
  unfold fetch_clusters_apply, bind at 1, lift at 1.
  replace (requests (log (say_on self [Lit "Loading clusters..."] w)))
    with (requests (log w))
    by (unfold say_on; cbn [log add_event set_screens];
        now rewrite requests_snoc_cluster_status).
  fold req. rewrite Hfail. cbn [Exception_].
  unfold fetch_clusters_failed.
  apply (screen_update_status_run _ _ (with_cluster_status [Lit "Loading clusters..."] s)).
  - exact Hs1.
  - exact Ha.
Qed.

End ClusterScreenRuns.

(** ** Going back *)

Lemma action_back_effect (w : World) :
  let w' := snd (action_back w) in
  projects w' = projects w /\ projects_table w' = projects_table w /\
  status_text w' = status_text w /\ status_class w' = status_class w /\
  screens w' = screens w /\ screen_stack w' = tail (screen_stack w).
Proof.
  unfold action_back. destruct (screen_stack w) eqn:Hstack; simpl; now rewrite ?Hstack.
Qed.

(** ** The rows on display and the stored projects *)

Lemma table_rows_show (ps : list ProjectData) :
  Forall (fun r => exists p, In p ps /\ shows p r) (fst (table_rows ps)).
Proof.
  induction ps as [|p ps IH]; simpl; [constructor|].
  destruct (created_cell (created p)) as [date|e]; simpl; [|constructor].
  constructor.
  - exists p. split; [now left | now exists date].
  - eapply Forall_impl; [exact IH|].
    intros r (q & Hq & Hshows). exists q. split; [now right | exact Hshows].
Qed.

Lemma initial_table_shows_projects (pk sk : string) :
  table_shows_projects (initial pk sk).
Proof. constructor. Qed.

(** The authenticate action keeps every row backed by a stored project,
    whether the fetch fails, succeeds, or stops while drawing. *)
Lemma action_authenticate_table_shows_projects
    (remote : list request -> request -> exchange) (w : World) :
  screen_stack w = [] ->
  table_shows_projects w ->
  table_shows_projects (snd (action_authenticate remote w)).
Proof.
  intros Hs Hinv. rewrite (action_authenticate_run remote w Hs). cbv zeta. cbn [snd].
  destruct (get_projects_of _) as [ps|e].
  - apply loaded_table_shows_projects, table_rows_show.
  - apply failed_table_shows_projects. exact Hinv.
Qed.

Lemma shown_row_found (w : World) (n : nat) (r : row) :
  table_shows_projects w ->
  projects_table w !! n = Some r ->
  exists project_name project_id,
    r !! 0%nat = Some project_name /\ r !! 1%nat = Some project_id /\
    (py_eq project_id project_id = true ->
     exists p, find_project project_id (projects w) = Some p /\
       In p (projects w) /\ py_eq (id p) project_id = true).
Proof.
  intros Hinv Hr. unfold table_shows_projects in Hinv.
  rewrite Forall_forall in Hinv.
  destruct (Hinv r) as (p & Hin & date & ->).
  { eapply list_elem_of_lookup_2. exact Hr. }
  exists (py_or (name p) (PStr "Unnamed Project")), (id p).
  split; [reflexivity|]. split; [reflexivity|].
  intros Hself. now apply (find_project_found (id p) (projects w) p).
Qed.

Lemma opened_screen (project_name : pyval) (p : ProjectData) (w : World) :
  exists api,
    screens (opened project_name p w) =
      screens w ++ [mkScreen p api [] [] [Lit "Loading clusters..."] true] /\
    screen_stack (opened project_name p w) = length (screens w) :: screen_stack w.
Proof.
  unfold opened. destruct (api_client w) as [api|]; eexists; split; reflexivity.
Qed.

(** C6, as stated, fails: with the cursor on row 0 of an empty table the
    index is out of bounds, and the status is an error about the row, not
    the request to select a project. *)
Lemma C6_index_beyond_rows_is_an_error :
  let out := action_cluster (Some 0) (initial "pk" "sk") in
  projects_table (initial "pk" "sk") = [] /\
  status_text (snd out) = [Lit "Error viewing clusters: "; Exc (RowDoesNotExist 0)] /\
  status_class (snd out) = "error" /\
  status_text (snd out) <> [Lit "Please select a project to view clusters"].
Proof. cbv zeta. repeat split. discriminate. Qed.

(** C6, amended: on the project list, with every row on display backed
    by a stored project, opening the clusters from a row whose id equals
    itself makes the current screen the cluster list of a new screen
    object whose project is a stored one with an id equal to the id in the
    row (the same string, when the id is a string); with no cursor or a
    negative one the status asks to select a project, and with a cursor
    past the last row the status is an error naming the row; in both of
    these cases the current screen stays the project list and no screen is
    built. *)
Theorem C6_open_clusters (w : World) (cursor_row : option Z) :
  screen_stack w = [] ->
  table_shows_projects w ->
  let out := action_cluster cursor_row w in
  (cursor_row = None \/ (exists i, cursor_row = Some i /\ i < 0) ->
   fst out = Ok tt /\
   status_text (snd out) = [Lit "Please select a project to view clusters"] /\
   status_class (snd out) = "" /\
   current_screen (snd out) = ProjectList /\
   screens (snd out) = screens w) /\
  (forall i, cursor_row = Some i -> 0 <= i ->
   Z.of_nat (length (projects_table w)) <= i ->
   fst out = Ok tt /\
   status_text (snd out) = [Lit "Error viewing clusters: "; Exc (RowDoesNotExist i)] /\
   status_class (snd out) = "error" /\
   current_screen (snd out) = ProjectList /\
   screens (snd out) = screens w) /\
  (forall i r, cursor_row = Some i -> 0 <= i ->
   projects_table w !! Z.to_nat i = Some r ->
   exists project_id, r !! 1%nat = Some project_id /\
     (py_eq project_id project_id = true ->
      fst out = Ok tt /\
      exists s,
        current_screen (snd out) = ClusterList (length (screens w)) /\
        screens (snd out) !! length (screens w) = Some s /\
        In (project_data s) (projects w) /\
        py_eq (id (project_data s)) project_id = true /\
        (forall t, project_id = PStr t -> id (project_data s) = PStr t))).
Proof.
  intros Hs Hinv out. subst out. split; [|split].
  - intros Hc. rewrite (action_cluster_unselected cursor_row w Hs Hc).
    unfold current_screen. cbn. rewrite Hs. repeat split.
  - intros i -> Hi Hlen. rewrite (action_cluster_beyond i w Hs Hi Hlen).
    unfold current_screen. cbn. rewrite Hs. repeat split.
  - intros i r -> Hi Hr.
    destruct (shown_row_found w (Z.to_nat i) r Hinv Hr)
      as (project_name & project_id & Hname & Hid & Hfound).
    exists project_id. split; [exact Hid|]. intros Hself.
    destruct (Hfound Hself) as (p & Hfind & Hin & Heq).
    rewrite (action_cluster_found i w r project_name project_id p Hs Hi Hr Hname Hid Hfind).
    cbn [fst snd]. split; [reflexivity|].
    destruct (opened_screen project_name p w) as (api & Hscreens & Hstack).
    exists (mkScreen p api [] [] [Lit "Loading clusters..."] true).
    unfold current_screen. rewrite Hstack, Hscreens.
    split; [reflexivity|]. split; [now apply list_lookup_middle|].
    cbn [project_data]. split; [exact Hin|]. split; [exact Heq|].
    intros t ->. now apply py_eq_str.
Qed.

Lemma C6_open_clusters_witness :
  let body :=
    PDict [("results", PList [PDict [("id", PStr "p1"); ("name", PStr "Demo")];
                              PDict [("id", PStr "p2"); ("name", PStr "Test")]])] in
  let remote := fun (_ : list request) (_ : request) =>
    Replied (mkResponse 200 (Some body)) in
  let w := snd (action_authenticate remote (initial "pk" "sk")) in
  let out := action_cluster (Some 1) w in
  exists s,
    current_screen (snd out) = ClusterList 0 /\
    screens (snd out) !! 0%nat = Some s /\
    id (project_data s) = PStr "p2".
Proof.
  intros body remote w out.
  assert (Hinv : table_shows_projects w).
  { apply action_authenticate_table_shows_projects;
      [reflexivity | apply initial_table_shows_projects]. }
  destruct (C6_open_clusters w (Some 1) eq_refl Hinv) as (_ & _ & Hvalid).
  destruct (Hvalid 1 [PStr "Test"; PStr "p2"; PStr "N/A"] eq_refl ltac:(lia) eq_refl)
    as (project_id & Hid & Hopen).
  injection Hid as <-.
  destruct (Hopen eq_refl) as (_ & s & Hscreen & Hs & _ & _ & Hstring).
  exists s. split; [exact Hscreen|]. split; [exact Hs|]. now apply Hstring.
Defined.

(** ** Failures at the action boundary *)

(** C1, as stated, fails twice.  A failed delete is not caught:
    [action_delete] handles [IndexError] and [StopIteration] only, and the
    [Exception] of the client leaves the action.  A failed cluster fetch is
    caught, but the cluster screen writes its status as plain text: no
    status of class [error] exists after it. *)
Lemma C1_delete_failure_escapes_and_cluster_error_has_no_class :
  let body :=
    PDict [("results", PList [PDict [("id", PStr "p1"); ("name", PStr "Demo")]])] in
  let remote := fun (_ : list request) (r : request) =>
    match req_method r, req_route r with
    | GET, Groups => Replied (mkResponse 200 (Some body))
    | GET, _ => Failed "timed out"
    | DELETE, _ => Replied (mkResponse 404 None)
    end in
  let w := snd (action_authenticate remote (initial "pk" "sk")) in
  let failure := PyException [Lit "API request failed: "; Exc (TransportError "timed out")] in
  fst (action_delete remote (Some 0) w) =
    Raise (PyException [Lit "API request failed: "; Exc (HTTPStatusError 404)]) /\
  let opened := snd (action_cluster (Some 0) w) in
  let out := on_mount remote 0 opened in
  current_screen opened = ClusterList 0 /\
  fst out = Ok tt /\
  status_class (snd out) <> "error" /\
  exists s, screens (snd out) !! 0%nat = Some s /\
    cluster_status_display s = [Lit "Error loading clusters: "; Exc failure].
Proof.
  cbv zeta. split; [reflexivity|]. split; [reflexivity|]. split; [reflexivity|].
  split; [discriminate|]. eexists. split; reflexivity.
Qed.

(** C1, amended: on the project list, every failure of [get_projects]
    during the authenticate action is caught and shown as a status of class
    [error], and the stored projects, the table, the screen objects and the
    current screen are what they were; on a cluster screen, every failure of
    [get_clusters] while the screen loads is caught and shown as the
    screen's status text, which carries no class, the screen keeps its
    project and its clusters, and nothing outside that screen object
    changes.  Neither action lets the failure out. *)
Theorem C1_failures_caught
    (remote : list request -> request -> exchange) (w : World) (e : exn) :
  (screen_stack w = [] ->
   get_projects_of
     (remote (requests (log w)) (mkRequest GET Groups (public_key w, private_key w)))
   = Raise e ->
   let out := action_authenticate remote w in
   fst out = Ok tt /\
   status_text (snd out) = [Lit "Error: "; Exc e] /\
   status_class (snd out) = "error" /\
   projects (snd out) = projects w /\
   projects_table (snd out) = projects_table w /\
   screens (snd out) = screens w /\
   current_screen (snd out) = current_screen w) /\
  (forall self s,
   screens w !! self = Some s ->
   attached s = true ->
   get_clusters_of
     (remote (requests (log w))
        (mkRequest GET (GroupClusters (id (project_data s))) (auth_of (scr_api_client s))))
   = Raise e ->
   let out := on_mount remote self w in
   fst out = Ok tt /\
   (exists s', screens (snd out) !! self = Some s' /\
      cluster_status_display s' = [Lit "Error loading clusters: "; Exc e] /\
      clusters s' = clusters s /\
      project_data s' = project_data s) /\
   outside self w (snd out) /\
   current_screen (snd out) = current_screen w).
Proof.
  split.
  - intros Hs Hfail out. subst out.
    rewrite (action_authenticate_run remote w Hs). cbv zeta. rewrite Hfail.
    destruct (requested_frame (public_key w) (private_key w)
                (say [Lit "Authenticating..."] "" w)) as (Hp & Ht & Hsc & Hst).
    unfold current_screen.
    cbn [fst snd say status_text status_class projects projects_table screens
         screen_stack add_event set_status].
    rewrite Hp, Ht, Hsc, Hst. repeat split.
  - intros self s Hs Ha Hfail out. subst out.
    rewrite (on_mount_failed remote self w s e Hs Ha Hfail). cbn [fst snd].
    set (req := mkRequest GET _ _).
    assert (Hout : outside self w
      (say_on self [Lit "Error loading clusters: "; Exc e]
         (add_event (Sent req) (say_on self [Lit "Loading clusters..."] w)))).
    { unfold say_on.
      repeat (first [apply outside_refl
                    | eapply outside_trans; [|apply outside_event]
                    | eapply outside_trans; [|apply outside_screen]]). }
    split; [reflexivity|]. split; [|split; [exact Hout|]].
    + exists (with_cluster_status [Lit "Error loading clusters: "; Exc e]
                (with_cluster_status [Lit "Loading clusters..."] s)).
      split; [|repeat split].
      apply say_on_lookup.
      cbn [screens add_event]. now apply say_on_lookup.
    + unfold current_screen. destruct Hout as (_ & _ & _ & _ & _ & -> & _). reflexivity.
Qed.

Lemma C1_failures_caught_witness :
  let remote := fun (_ : list request) (_ : request) => Failed "timed out" in
  let failure := PyException [Lit "API request failed: "; Exc (TransportError "timed out")] in
  let project :=
    mkProjectData (PStr "p1") (PStr "Demo") (PStr "") (PStr "") (PInt 0) (PList []) in
  let w := pushed project (mkAtlasAPI "pk" "sk") (initial "pk" "sk") in
  status_class (snd (action_authenticate remote (initial "pk" "sk"))) = "error" /\
  fst (on_mount remote 0 w) = Ok tt /\
  current_screen (snd (on_mount remote 0 w)) = ClusterList 0.
Proof.
  intros remote failure project w.
  destruct (proj1 (C1_failures_caught remote (initial "pk" "sk") failure) eq_refl eq_refl)
    as (_ & _ & Hclass & _).
  destruct (proj2 (C1_failures_caught remote w failure) 0%nat
              (mkScreen project (mkAtlasAPI "pk" "sk") [] [] [Lit "Loading clusters..."] true)
              eq_refl eq_refl eq_refl)
    as (Hreturns & _ & _ & Hscreen).
  split; [exact Hclass|]. split; [exact Hreturns | exact Hscreen].
Defined.

(** ** An invariant of every session *)

Lemma same_listing_refl (w : World) : same_listing w w.
Proof. split; reflexivity. Qed.

Lemma same_listing_trans (w1 w2 w3 : World) :
  same_listing w1 w2 -> same_listing w2 w3 -> same_listing w1 w3.
Proof. intros [H1 H2] [K1 K2]. split; congruence. Qed.

Lemma same_listing_shows (w w' : World) :
  same_listing w w' -> table_shows_projects w -> table_shows_projects w'.
Proof. intros [Hp Ht]. unfold table_shows_projects. now rewrite Hp, Ht. Qed.

Lemma outside_same_listing (self : nat) (w w' : World) :
  outside self w w' -> same_listing w w'.
Proof. intros (Hp & Ht & _). now split. Qed.

Lemma preserves_update_status (m : message) (c : string) :
  preserves same_listing (update_status m c).
Proof.
  apply preserves_bind; [exact same_listing_trans | | intros _].
  - apply preserves_same; [exact same_listing_refl|].
    intros w. unfold query_one. now destruct (screen_stack w).
  - apply preserves_bind; [exact same_listing_trans | | intros _];
      apply preserves_modify; intros w; split; reflexivity.
Qed.

Lemma preserves_action_cluster (cursor_row : option Z) :
  preserves same_listing (action_cluster cursor_row).
Proof.
  pose proof same_listing_refl as Hrefl. pose proof same_listing_trans as Htrans.
  unfold action_cluster.
  apply preserves_bind; [exact Htrans | | intros _].
  { apply preserves_same; [exact Hrefl|].
    intros w. unfold query_one. now destruct (screen_stack w). }
  destruct cursor_row as [i|]; [|apply preserves_update_status].
  destruct (i <? 0); [apply preserves_update_status|].
  apply preserves_try_except; [exact Htrans | | intros e; apply preserves_update_status].
  apply preserves_bind; [exact Htrans | | intros selected_row].
  { apply preserves_same; [exact Hrefl|].
    intros w. unfold get_row_at.
    destruct (_ && _); [|reflexivity]. now destruct (projects_table w !! _). }
  assert (Hitem : forall k, preserves same_listing (item selected_row k)).
  { intros k. unfold item.
    destruct (selected_row !! k); [now apply preserves_ret | now apply preserves_raise]. }
  apply preserves_bind; [exact Htrans | apply Hitem | intros project_name].
  apply preserves_bind; [exact Htrans | apply Hitem | intros project_id].
  apply preserves_bind; [exact Htrans | now apply preserves_gets | intros ps].
  destruct (find_project project_id ps) as [p|]; [|apply preserves_update_status].
  apply preserves_bind; [exact Htrans | apply preserves_update_status | intros _].
  apply preserves_bind; [exact Htrans | now apply preserves_gets | intros client].
  apply preserves_bind; [exact Htrans | | intros api].
  - destruct client as [api|]; [now apply preserves_ret|].
    apply preserves_bind; [exact Htrans | now apply preserves_gets | intros pk].
    apply preserves_bind; [exact Htrans | now apply preserves_gets | intros sk].
    apply preserves_bind; [exact Htrans | | intros _; now apply preserves_ret].
    apply preserves_modify. intros w. split; reflexivity.
  - apply preserves_modify. intros w. split; reflexivity.
Qed.

Lemma fetch_clusters_outside
    (remote : list request -> request -> exchange) (self : nat) :
  preserves (outside self) (fetch_clusters remote self).
Proof.
  intros w. rewrite fetch_clusters_cut. revert w.
  apply preserves_bind; [apply outside_trans | | apply fetch_clusters_resume_outside].
  apply (preserves_fetch_clusters_begin remote self (outside self) (fun _ => True)
           (outside_refl self) (outside_trans self) (outside_event self)
           (fun f w _ => outside_screen self f w) (fun _ => I)).
Qed.

Section Session.

Variable remote : list request -> request -> exchange.

Lemma action_delete_unselected (cursor_row : option Z) (w : World) :
  screen_stack w = [] ->
  cursor_row = None \/ (exists i, cursor_row = Some i /\ i < 0) ->
  action_delete remote cursor_row w =
  (Ok tt, say [Lit "Please select a project to delete"] "" w).
Proof.
  intros Hs Hc. unfold action_delete, bind at 1, query_one at 1. rewrite Hs.
  destruct Hc as [-> | (i & -> & Hi)].
  - now apply update_status_run.
  - replace (i <? 0) with true by (symmetry; apply Z.ltb_lt; lia).
    now apply update_status_run.
Qed.

(** With the cursor past the last row the lookup raises a class the
    handler does not name. *)
Lemma action_delete_beyond (i : Z) (w : World) :
  screen_stack w = [] ->
  0 <= i ->
  Z.of_nat (length (projects_table w)) <= i ->
  action_delete remote (Some i) w =
  (Raise (RowDoesNotExist i), say [Lit "Deleting project..."; Num i] "" w).
Proof.
  intros Hs Hi Hlen. unfold action_delete, bind at 1, query_one at 1. rewrite Hs.
  replace (i <? 0) with false by (symmetry; apply Z.ltb_ge; lia).
  unfold try_except, bind at 1. rewrite (update_status_run _ _ w Hs).
  unfold bind at 1. rewrite get_row_at_beyond by exact Hlen. reflexivity.
Qed.

Lemma action_delete_table_shows_projects (cursor_row : option Z) (w : World) :
  screen_stack w = [] ->
  table_shows_projects w ->
  table_shows_projects (snd (action_delete remote cursor_row w)).
Proof.
  intros Hs Hinv.
  destruct cursor_row as [i|];
    [|rewrite action_delete_unselected by (exact Hs || now left); exact Hinv].
  destruct (Z.ltb_spec i 0) as [Hneg|Hi].
  { rewrite action_delete_unselected by (exact Hs || (right; now exists i)). exact Hinv. }
  destruct (projects_table w !! Z.to_nat i) as [r|] eqn:Hr.
  - destruct (shown_row_found w (Z.to_nat i) r Hinv Hr)
      as (project_name & project_id & Hname & Hid & _).
    rewrite (action_delete_run remote w i r project_name project_id Hs Hi Hr Hname Hid).
    destruct (delete_one_project_of _) as [b|e]; [|exact Hinv].
    rewrite fetch_projects_run by exact Hs. cbn [snd].
    destruct (get_projects_of _) as [ps|e].
    + apply loaded_table_shows_projects, table_rows_show.
    + apply failed_table_shows_projects. exact Hinv.
  - apply lookup_ge_None in Hr.
    rewrite action_delete_beyond by (exact Hs || lia). exact Hinv.
Qed.

(** In every world a session reaches, each row on display is backed by
    a stored project: the premise under which a row can be opened. *)
Theorem reachable_table_shows_projects (w : World) :
  reachable remote w -> table_shows_projects w.
Proof.
  induction 1 as [pk sk | w w' Hreach IH Hstep].
  - apply initial_table_shows_projects.
  - destruct Hstep as [w Hs | w c Hs | w c Hs | w self | w Hs].
    + now apply action_authenticate_table_shows_projects.
    + now apply action_delete_table_shows_projects.
    + exact (same_listing_shows _ _ (preserves_action_cluster c w) IH).
    + exact (same_listing_shows _ _
               (outside_same_listing self _ _ (fetch_clusters_outside remote self w)) IH).
    + destruct (action_back_effect w) as (Hp & Ht & _).
      exact (same_listing_shows _ _ (conj Hp Ht) IH).
Qed.

End Session.

(** * Further properties of the client *)

Lemma build_records_Forall2 {A : Type} (init : pyval -> result A)
    (items : list pyval) (out : list A) :
  build_records init items = Ok out <->
  Forall2 (fun item a => init item = Ok a) items out.
Proof.
  revert out. induction items as [|x items IH]; intros out; simpl.
  - split.
    + intros [= <-]. constructor.
    + intros H. apply Forall2_nil_inv_l in H. now subst.
  - split.
    + destruct (init x) as [a|e] eqn:Hx; [|discriminate].
      destruct (build_records init items) as [rest|e] eqn:Hrest; [|discriminate].
      intros [= <-]. constructor; [exact Hx | now apply IH].
    + intros H. apply Forall2_cons_inv_l in H as (a & rest & Hx & Hrest & ->).
      rewrite Hx. apply IH in Hrest. now rewrite Hrest.
Qed.


Lemma translate_ok_inv {A : Type} (r : result A) (a : A) :
  translate r = Ok a -> r = Ok a.
Proof. destruct r as [a'|[]]; simpl; congruence. Qed.

Lemma list_body_ok {A : Type} (init : pyval -> result A) (x : exchange) (out : list A) :
  translate (list_body init x) = Ok out <->
  exists r d items,
    x = Replied r /\ is_success r = true /\ json r = Some (PDict d) /\
    py_iter (dict_get d "results" (PList [])) = Ok items /\
    Forall2 (fun item a => init item = Ok a) items out.
Proof.
  split.
  - intros H. apply translate_ok_inv in H.
    destruct x as [detail|r]; [discriminate|].
    unfold list_body, raise_for_status, response_json in H.
    destruct (is_success r) eqn:Hs; [|discriminate].
    destruct (json r) as [data|] eqn:Hj; [|discriminate].
    destruct data as [| | | | | |d]; try discriminate.
    simpl in H.
    destruct (py_iter (dict_get d "results" (PList []))) as [items|e] eqn:Hit;
      [|discriminate].
    exists r, d, items. repeat split; try assumption.
    now apply build_records_Forall2.
  - intros (r & d & items & -> & Hs & Hj & Hit & Hall).
    rewrite (list_body_results init r d Hs Hj), Hit.
    apply build_records_Forall2 in Hall. now rewrite Hall.
Qed.

(** [get_projects] and [get_clusters] return a list exactly when the
    reply is 2xx, its body is a JSON object, what stands under [results]
    (nothing standing for the empty list) can be iterated, and the
    constructor accepts every item; the list then has one record per item,
    in order.  No partial list is ever returned. *)
Theorem list_operations_succeed_iff (x : exchange) :
  (forall ps, get_projects_of x = Ok ps <->
     exists r d items,
       x = Replied r /\ is_success r = true /\ json r = Some (PDict d) /\
       py_iter (dict_get d "results" (PList [])) = Ok items /\
       Forall2 (fun item p => ProjectData_init item = Ok p) items ps) /\
  (forall cs, get_clusters_of x = Ok cs <->
     exists r d items,
       x = Replied r /\ is_success r = true /\ json r = Some (PDict d) /\
       py_iter (dict_get d "results" (PList [])) = Ok items /\
       Forall2 (fun item c => ClusterData_init item = Ok c) items cs).
Proof. split; intros out; apply list_body_ok. Qed.







Lemma list_operations_succeed_iff_witness :
  let body := PDict [("results", PList [PDict [("id", PStr "p1")]])] in
  get_projects_of (Replied (mkResponse 200 (Some body))) =
  Ok [mkProjectData (PStr "p1") (PStr "") (PStr "") (PStr "") (PInt 0) (PList [])].
Proof.
  intros body.
  apply (proj2 (proj1 (list_operations_succeed_iff _) _)).
  exists (mkResponse 200 (Some body)), [("results", PList [PDict [("id", PStr "p1")]])],
    [PDict [("id", PStr "p1")]].
  repeat split. repeat constructor.
Defined.

(** [delete_one_project] returns [True] exactly on a 2xx reply, whatever
    the body; it never returns [False]: every other reply raises. *)
Theorem delete_succeeds_iff_2xx (x : exchange) :
  (delete_one_project_of x = Ok true <->
   exists r, x = Replied r /\ is_success r = true) /\
  delete_one_project_of x <> Ok false.
Proof.
  split; [split|].
  - unfold delete_one_project_of, raise_for_status.
    destruct x as [detail|r]; simpl; [discriminate|].
    destruct (is_success r) eqn:Hs; simpl; [|discriminate].
    intros _. now exists r.
  - intros (r & -> & Hs). unfold delete_one_project_of, raise_for_status.
    now rewrite Hs.
  - intros H. apply delete_returns_true in H. discriminate.
Qed.

Lemma delete_succeeds_iff_2xx_witness :
  delete_one_project_of (Replied (mkResponse 204 (Some (PStr "gone")))) = Ok true /\
  delete_one_project_of (Replied (mkResponse 301 None)) <> Ok true.
Proof.
  split.
  - apply (proj1 (delete_succeeds_iff_2xx _)). eexists. split; reflexivity.
  - intros H. apply (proj1 (delete_succeeds_iff_2xx _)) in H as (r & Hr & Hs).
    injection Hr as <-. discriminate Hs.
Defined.

(** A [results] key that is present is never replaced by the default: a
    value that cannot be iterated ([null], a boolean, a number) makes both
    list operations raise the [TypeError] of the loop, where a missing key
    gives the empty list. *)
Theorem results_present_but_not_iterable (r : response) (d : pydict) (v : pyval) :
  is_success r = true ->
  json r = Some (PDict d) ->
  dict_lookup d "results" = Some v ->
  match v with PNone | PBool _ | PInt _ | PFloat _ => True | _ => False end ->
  get_projects_of (Replied r) = Raise (TypeError (type_name v) "is not iterable") /\
  get_clusters_of (Replied r) = Raise (TypeError (type_name v) "is not iterable").
Proof.
  intros Hs Hj Hv Hkind. unfold get_projects_of, get_clusters_of.
  rewrite !(list_body_results _ r d Hs Hj), (dict_get_present _ _ _ _ Hv).
  destruct v; try contradiction; split; reflexivity.
Qed.

Lemma results_present_but_not_iterable_witness :
  let r := mkResponse 200 (Some (PDict [("results", PNone); ("totalCount", PInt 0)])) in
  get_projects_of (Replied r) = Raise (TypeError "NoneType" "is not iterable").
Proof.
  intros r.
  exact (proj1 (results_present_but_not_iterable r
                  [("results", PNone); ("totalCount", PInt 0)] PNone
                  eq_refl eq_refl eq_refl I)).
Defined.

(** * Further properties of the project table *)

Lemma fromisoformat_month (s : string) (dt : datetime) :
  fromisoformat s = Some dt -> 1 <= month dt <= 12.
Proof.
  unfold fromisoformat, mbind, option_bind. intros H.
  assert (Hrange : in_range 1 12 (month dt) = true).
  { repeat case_match; simplify_eq; cbn [month];
      repeat match goal with
             | Hc : _ && _ = true |- _ => apply andb_prop in Hc as [? ?]
             end; assumption. }
  unfold in_range in Hrange. apply andb_prop in Hrange as [Hlo Hhi].
  apply Z.leb_le in Hlo, Hhi. lia.
Qed.

Lemma string_length_app (a b : string) :
  String.length (a ++ b)%string = (String.length a + String.length b)%nat.
Proof. induction a as [|c a IH]; simpl; [reflexivity | now rewrite IH]. Qed.

Lemma month_abbr_length (m : Z) : 1 <= m <= 12 -> String.length (month_abbr m) = 3%nat.
Proof.
  intros Hm.
  assert (Hcases : m = 1 \/ m = 2 \/ m = 3 \/ m = 4 \/ m = 5 \/ m = 6 \/
                   m = 7 \/ m = 8 \/ m = 9 \/ m = 10 \/ m = 11 \/ m = 12) by lia.
  repeat (destruct Hcases as [-> | Hcases]; [reflexivity|]). now subst.
Qed.

Lemma strftime_length (dt : datetime) :
  1 <= month dt <= 12 -> String.length (strftime dt) = 17%nat.
Proof.
  intros Hm. unfold strftime, pad4.
  rewrite !string_length_app, (month_abbr_length _ Hm). reflexivity.
Qed.

Lemma substring_length (n : nat) (s : string) :
  (String.length (substring 0 n s) <= n)%nat.
Proof.
  revert s. induction n as [|n IH]; intros [|c s]; simpl; try lia.
  specialize (IH s). lia.
Qed.

Lemma replace_Z_no_digit (c : ascii) (rest : string) :
  digit_of c = None ->
  exists c' rest', replace_Z (String c rest) = String c' rest' /\ digit_of c' = None.
Proof.
  intros Hc. simpl. destruct (Ascii.eqb c "Z").
  - eexists _, _. split; reflexivity.
  - now exists c, (replace_Z rest).
Qed.

Lemma fromisoformat_no_digit (c : ascii) (rest : string) :
  digit_of c = None -> fromisoformat (String c rest) = None.
Proof. intros Hc. unfold fromisoformat. cbn. now rewrite Hc. Qed.

(** Whatever ASCII string the remote sends as [created], drawing the date
    cell does not raise, and the cell is a string of at most 19
    characters: "N/A" when the string is empty, and the first 19
    characters of the string itself when it does not begin with a digit,
    which no date does. *)
Theorem created_cell_of_string (s : string) :
  isascii s = true ->
  exists cell,
    created_cell (PStr s) = Ok (PStr cell) /\
    (String.length cell <= 19)%nat /\
    (s = "" -> cell = "N/A") /\
    (forall c rest, s = String c rest -> digit_of c = None ->
       cell = substring 0 19 s).
Proof.
  intros _. unfold created_cell. cbn [truthy].
  destruct (String.eqb_spec s "") as [-> | Hne]; cbn [negb].
  - exists "N/A". repeat split; try (simpl; lia); intros; congruence.
  - destruct (fromisoformat (replace_Z s)) as [dt|] eqn:Hparse.
    + exists (strftime dt).
      pose proof (strftime_length dt (fromisoformat_month _ _ Hparse)) as Hlen.
      repeat split; try congruence; try lia.
      intros c rest -> Hc.
      destruct (replace_Z_no_digit c rest Hc) as (c' & rest' & Hr & Hc').
      rewrite Hr, (fromisoformat_no_digit c' rest' Hc') in Hparse. discriminate.
    + exists (substring 0 19 s).
      repeat split; try congruence.
      apply substring_length.
Qed.

(** A [created] value raises while the table is drawn exactly when it is
    truthy and is a boolean, a number or an object: [None], strings and
    lists, and every falsy value, are drawn. *)
Theorem created_cell_raises_iff (created : pyval) :
  (exists e, created_cell created = Raise e) <->
  truthy created = true /\
  match created with
  | PBool _ | PInt _ | PFloat _ | PDict _ => True
  | _ => False
  end.
Proof.
  unfold created_cell. split.
  - intros [e He]. destruct (truthy created) eqn:Ht; [|discriminate].
    split; [reflexivity|].
    destruct created as [| | | | s | |]; try exact I; try discriminate.
    destruct (fromisoformat (replace_Z s)); discriminate.
  - intros [-> Hkind]. destruct created; try contradiction; eauto.
Qed.

Lemma created_cell_raises_iff_witness :
  exists e, created_cell (PInt 1704448800) = Raise e.
Proof.
  apply (proj2 (created_cell_raises_iff (PInt 1704448800))). split; [reflexivity | exact I].
Defined.

Lemma created_cell_of_string_witness :
  isascii "pending since yesterday, 10:00" = true /\
  created_cell (PStr "pending since yesterday, 10:00") = Ok (PStr "pending since yeste").
Proof.
  split; [reflexivity|].
  destruct (created_cell_of_string "pending since yesterday, 10:00" eq_refl)
    as (cell & Hcell & _ & _ & Hslice).
  rewrite Hcell, (Hslice _ _ eq_refl eq_refl). reflexivity.
Defined.

(** A project the table can draw. *)
Lemma table_rows_drawn (ps : list ProjectData) :
  Forall (fun p => exists date, created_cell (created p) = Ok date) ps ->
  snd (table_rows ps) = None /\
  Forall2 (fun p r => exists date,
             created_cell (created p) = Ok date /\
             r = [py_or (name p) (PStr "Unnamed Project"); id p; date])
    ps (fst (table_rows ps)).
Proof.
  induction 1 as [|p ps [date Hdate] _ [IHnone IHrows]]; simpl.
  - split; [reflexivity | constructor].
  - rewrite Hdate. simpl. split; [exact IHnone|].
    constructor; [now exists date | exact IHrows].
Qed.

Lemma table_rows_stopped (ps : list ProjectData) (n : nat) (p : ProjectData) (e : exn) :
  ps !! n = Some p ->
  created_cell (created p) = Raise e ->
  Forall (fun q => exists date, created_cell (created q) = Ok date) (take n ps) ->
  snd (table_rows ps) = Some e /\
  Forall2 (fun q r => exists date,
             created_cell (created q) = Ok date /\
             r = [py_or (name q) (PStr "Unnamed Project"); id q; date])
    (take n ps) (fst (table_rows ps)).
Proof.
  revert n. induction ps as [|q ps IH]; intros [|n]; simpl; try discriminate.
  - intros [= ->] He _. rewrite He. split; [reflexivity | constructor].
  - intros Hp He Hall. apply Forall_cons in Hall as [[date Hdate] Hall].
    rewrite Hdate. simpl. destruct (IH n Hp He Hall) as [-> Hrows].
    split; [reflexivity|]. constructor; [now exists date | exact Hrows].
Qed.

Lemma loaded_frame (ps : list ProjectData) (w : World) :
  api_client (loaded ps w) = api_client w /\
  screens (loaded ps w) = screens w /\
  screen_stack (loaded ps w) = screen_stack w.
Proof. unfold loaded. destruct (snd (table_rows ps)); repeat split. Qed.

Lemma loaded_status (ps : list ProjectData) (w : World) :
  (snd (table_rows ps) = None ->
   status_class (loaded ps w) = "success" /\
   status_text (loaded ps w) =
     [Lit "Successfully loaded "; Num (Z.of_nat (length ps)); Lit " project";
      Lit (plural (Z.of_nat (length ps)))]) /\
  (forall e, snd (table_rows ps) = Some e ->
   status_class (loaded ps w) = "error" /\
   status_text (loaded ps w) = [Lit "Error: "; Exc e]).
Proof.
  unfold loaded. destruct (snd (table_rows ps)); split;
    try discriminate; try (intros e' [= <-]); try intros _; split; reflexivity.
Qed.

(** When [get_projects] returns projects that can all be drawn, the
    authenticate action stores them, fills the table with one row per
    project in the same order (display name, the id as it is, the date
    cell), and reports the count with class [success]. *)
Theorem authenticate_draws_every_project
    (remote : list request -> request -> exchange) (w : World) (ps : list ProjectData) :
  screen_stack w = [] ->
  get_projects_of
    (remote (requests (log w)) (mkRequest GET Groups (public_key w, private_key w)))
  = Ok ps ->
  Forall (fun p => exists date, created_cell (created p) = Ok date) ps ->
  let out := action_authenticate remote w in
  fst out = Ok tt /\
  projects (snd out) = ps /\
  Forall2 (fun p r => exists date,
             created_cell (created p) = Ok date /\
             r = [py_or (name p) (PStr "Unnamed Project"); id p; date])
    ps (projects_table (snd out)) /\
  length (projects_table (snd out)) = length ps /\
  status_class (snd out) = "success" /\
  status_text (snd out) =
    [Lit "Successfully loaded "; Num (Z.of_nat (length ps)); Lit " project";
     Lit (if Z.of_nat (length ps) =? 1 then "" else "s")].
Proof.
  intros Hs Hget Hall out. subst out.
  rewrite (action_authenticate_run remote w Hs). cbv zeta. rewrite Hget. cbn [fst snd].
  destruct (table_rows_drawn ps Hall) as [Hnone Hrows].
  set (before := requested _ _ _).
  destruct (loaded_listing ps before) as [Hp Ht].
  destruct (proj1 (loaded_status ps before) Hnone) as [Hclass Htext].
  rewrite Hp, Ht, Hclass, Htext.
  repeat split; try exact Hrows.
  symmetry. exact (Forall2_length _ _ _ Hrows).
Qed.

Lemma authenticate_draws_every_project_witness :
  let body :=
    PDict [("results", PList [PDict [("id", PStr "p1"); ("name", PStr "")];
                              PDict [("id", PStr "p2"); ("created", PStr "soon")]])] in
  let remote := fun (_ : list request) (_ : request) =>
    Replied (mkResponse 200 (Some body)) in
  let out := action_authenticate remote (initial "pk" "sk") in
  projects_table (snd out) =
    [[PStr "Unnamed Project"; PStr "p1"; PStr "N/A"];
     [PStr "Unnamed Project"; PStr "p2"; PStr "soon"]] /\
  status_text (snd out) = [Lit "Successfully loaded "; Num 2; Lit " project"; Lit "s"].
Proof.
  intros body remote out.
  destruct (authenticate_draws_every_project remote (initial "pk" "sk")
              [mkProjectData (PStr "p1") (PStr "") (PStr "") (PStr "") (PInt 0) (PList []);
               mkProjectData (PStr "p2") (PStr "") (PStr "") (PStr "soon") (PInt 0)
                 (PList [])]
              eq_refl eq_refl)
    as (_ & _ & _ & _ & _ & Htext).
  - repeat constructor; eexists; reflexivity.
  - split; [reflexivity | exact Htext].
Defined.

(** When drawing stops at a project whose [created] cannot be drawn, the
    status is an error although [get_projects] succeeded: the stored
    projects are already the new ones, and the table holds only the rows of
    the projects before the one that failed. *)
Theorem authenticate_stops_at_undrawable_project
    (remote : list request -> request -> exchange) (w : World)
    (ps : list ProjectData) (n : nat) (p : ProjectData) (e : exn) :
  screen_stack w = [] ->
  get_projects_of
    (remote (requests (log w)) (mkRequest GET Groups (public_key w, private_key w)))
  = Ok ps ->
  ps !! n = Some p ->
  created_cell (created p) = Raise e ->
  Forall (fun q => exists date, created_cell (created q) = Ok date) (take n ps) ->
  let out := action_authenticate remote w in
  fst out = Ok tt /\
  status_class (snd out) = "error" /\
  status_text (snd out) = [Lit "Error: "; Exc e] /\
  projects (snd out) = ps /\
  Forall2 (fun q r => exists date,
             created_cell (created q) = Ok date /\
             r = [py_or (name q) (PStr "Unnamed Project"); id q; date])
    (take n ps) (projects_table (snd out)) /\
  length (projects_table (snd out)) = n.
Proof.
  intros Hs Hget Hp He Hall out. subst out.
  rewrite (action_authenticate_run remote w Hs). cbv zeta. rewrite Hget. cbn [fst snd].
  destruct (table_rows_stopped ps n p e Hp He Hall) as [Hstop Hrows].
  set (before := requested _ _ _).
  destruct (loaded_listing ps before) as [Hps Ht].
  destruct (proj2 (loaded_status ps before) e Hstop) as [Hclass Htext].
  assert (Hlen : length (fst (table_rows ps)) = n).
  { transitivity (length (take n ps)); [symmetry; exact (Forall2_length _ _ _ Hrows)|].
    rewrite length_take. apply lookup_lt_Some in Hp. lia. }
  rewrite Hps, Ht, Hclass, Htext.
  repeat split; assumption.
Qed.

Lemma authenticate_stops_at_undrawable_project_witness :
  let body :=
    PDict [("results", PList [PDict [("id", PStr "p1")];
                              PDict [("id", PStr "p2"); ("created", PInt 1704448800)];
                              PDict [("id", PStr "p3")]])] in
  let remote := fun (_ : list request) (_ : request) =>
    Replied (mkResponse 200 (Some body)) in
  let out := action_authenticate remote (initial "pk" "sk") in
  status_class (snd out) = "error" /\
  length (projects (snd out)) = 3%nat /\
  length (projects_table (snd out)) = 1%nat.
Proof.
  intros body remote out.
  destruct (authenticate_stops_at_undrawable_project remote (initial "pk" "sk")
              [mkProjectData (PStr "p1") (PStr "") (PStr "") (PStr "") (PInt 0) (PList []);
               mkProjectData (PStr "p2") (PStr "") (PStr "") (PInt 1704448800) (PInt 0)
                 (PList []);
               mkProjectData (PStr "p3") (PStr "") (PStr "") (PStr "") (PInt 0) (PList [])]
              1%nat
              (mkProjectData (PStr "p2") (PStr "") (PStr "") (PInt 1704448800) (PInt 0)
                 (PList []))
              (TypeError "int" "is not subscriptable")
              eq_refl eq_refl eq_refl eq_refl)
    as (_ & Hclass & _ & Hps & _ & Hlen).
  - repeat constructor. eexists; reflexivity.
  - split; [exact Hclass|]. split; [exact (f_equal length Hps) | exact Hlen].
Defined.

Lemma closes_app (l l' : list event) : closes (l ++ l') = (closes l + closes l')%nat.
Proof.
  induction l as [|[r| |m c|s m] l IH]; simpl; rewrite ?IH; reflexivity.
Qed.

Lemma requested_client (pk sk : string) (w : World) :
  api_client (requested pk sk w) = Some (mkAtlasAPI pk sk) /\
  closes (log (requested pk sk w)) =
    (closes (log w) + match api_client w with Some _ => 1 | None => 0 end)%nat /\
  requests (log (requested pk sk w)) = requests (log w) ++ [mkRequest GET Groups (pk, sk)].
Proof.
  unfold requested. destruct (api_client w);
    cbn [api_client log add_event set_api_client say set_status];
    rewrite !closes_app, !requests_app; cbn [closes requests app];
    rewrite ?app_nil_r; repeat split; lia.
Qed.

(** Whatever the remote answers, the authenticate action on the project
    list returns normally, sends exactly one request, [GET /groups] with the
    application's keys, closes the client held before if there was one, and
    leaves a new client built from those keys in its place; screens and the
    screen stack are not touched. *)
Theorem authenticate_one_request_new_client
    (remote : list request -> request -> exchange) (w : World) :
  screen_stack w = [] ->
  let out := action_authenticate remote w in
  fst out = Ok tt /\
  requests (log (snd out)) =
    requests (log w) ++ [mkRequest GET Groups (public_key w, private_key w)] /\
  closes (log (snd out)) =
    (closes (log w) + match api_client w with Some _ => 1 | None => 0 end)%nat /\
  api_client (snd out) = Some (mkAtlasAPI (public_key w) (private_key w)) /\
  screens (snd out) = screens w /\
  screen_stack (snd out) = screen_stack w.
Proof.
  intros Hs out. subst out.
  rewrite (action_authenticate_run remote w Hs). cbv zeta. cbn [fst snd].
  set (started := say [Lit "Authenticating..."] "" w).
  destruct (requested_client (public_key w) (private_key w) started)
    as (Hclient & Hcloses & Hrequests).
  destruct (requested_frame (public_key w) (private_key w) started)
    as (_ & _ & Hscreens & Hstack).
  assert (Hstarted : closes (log started) = closes (log w) /\
                     requests (log started) = requests (log w) /\
                     api_client started = api_client w).
  { subst started. cbn [say log add_event set_status api_client].
    rewrite closes_app, requests_snoc_status. cbn. repeat split. lia. }
  destruct Hstarted as (Hc0 & Hr0 & Ha0).
  rewrite Hc0, Ha0 in Hcloses. rewrite Hr0 in Hrequests.
  split; [reflexivity|].
  destruct (get_projects_of _) as [ps|e].
  - destruct (loaded_log ps (requested (public_key w) (private_key w) started))
      as (m & c & Hlog).
    destruct (loaded_frame ps (requested (public_key w) (private_key w) started))
      as (Ha & Hsc & Hst).
    rewrite Hlog, closes_app, requests_snoc_status, Ha, Hsc, Hst.
    cbn [closes]. rewrite Nat.add_0_r. repeat split; assumption.
  - cbn [say log add_event set_status api_client screens screen_stack].
    rewrite closes_app, requests_snoc_status. cbn [closes]. rewrite Nat.add_0_r.
    repeat split; assumption.
Qed.

Lemma authenticate_one_request_new_client_witness :
  let remote := fun (_ : list request) (_ : request) =>
    Replied (mkResponse 200 (Some (PList []))) in
  let once := snd (action_authenticate remote (initial "pk" "sk")) in
  let twice := snd (action_authenticate remote once) in
  length (requests (log twice)) = 2%nat /\ closes (log twice) = 1%nat.
Proof.
  intros remote once twice.
  destruct (authenticate_one_request_new_client remote once eq_refl)
    as (_ & Hrequests & Hcloses & _).
  split; [exact (f_equal (@length request) Hrequests) | exact Hcloses].
Defined.

(** * Further properties of the delete action *)

(** With the cursor past the last row, as on an empty table, the delete
    action raises the [RowDoesNotExist] of the lookup, which its handler
    does not name: the exception leaves the action, nothing is sent and the
    listing is untouched. *)
Theorem delete_past_last_row_raises
    (remote : list request -> request -> exchange) (w : World) (i : Z) :
  screen_stack w = [] ->
  0 <= i ->
  Z.of_nat (length (projects_table w)) <= i ->
  let out := action_delete remote (Some i) w in
  fst out = Raise (RowDoesNotExist i) /\
  status_text (snd out) = [Lit "Deleting project..."; Num i] /\
  requests (log (snd out)) = requests (log w) /\
  projects (snd out) = projects w /\
  projects_table (snd out) = projects_table w.
Proof.
  intros Hs Hi Hlen out. subst out.
  rewrite (action_delete_beyond remote i w Hs Hi Hlen). cbn [fst snd].
  repeat split. cbn [say log add_event set_status]. apply requests_snoc_status.
Qed.

Lemma delete_past_last_row_raises_witness :
  let remote := fun (_ : list request) (_ : request) => Failed "unused" in
  fst (action_delete remote (Some 0) (initial "pk" "sk")) = Raise (RowDoesNotExist 0) /\
  requests (log (snd (action_delete remote (Some 0) (initial "pk" "sk")))) = [].
Proof.
  intros remote.
  destruct (delete_past_last_row_raises remote (initial "pk" "sk") 0
              eq_refl (Z.le_refl 0) (Z.le_refl 0)) as (Hraise & _ & Hrequests & _).
  split; [exact Hraise | exact Hrequests].
Defined.

(** While every row on display is backed by a stored project, the
    handler of the delete action is never entered: whatever the cursor and
    the remote do, the action raises neither [IndexError] nor
    [StopIteration], and the status never reads "Could not find selected
    project". *)
Theorem delete_handler_never_entered
    (remote : list request -> request -> exchange) (w : World) (cursor_row : option Z) :
  screen_stack w = [] ->
  table_shows_projects w ->
  let out := action_delete remote cursor_row w in
  status_text (snd out) <> [Lit "Could not find selected project"] /\
  (forall e, fst out = Raise e -> IndexError_StopIteration e = false).
Proof.
  intros Hs Hinv out. subst out.
  destruct cursor_row as [i|].
  2: { rewrite action_delete_unselected by (exact Hs || now left).
       split; [discriminate | intros e; discriminate]. }
  destruct (Z.ltb_spec i 0) as [Hneg|Hi].
  { rewrite action_delete_unselected by (exact Hs || (right; now exists i)).
    split; [discriminate | intros e; discriminate]. }
  destruct (projects_table w !! Z.to_nat i) as [r|] eqn:Hr.
  - destruct (shown_row_found w (Z.to_nat i) r Hinv Hr)
      as (project_name & project_id & Hname & Hid & _).
    rewrite (action_delete_run remote w i r project_name project_id Hs Hi Hr Hname Hid).
    destruct (delete_one_project_of _) as [b|e] eqn:Hdel.
    + rewrite fetch_projects_run by exact Hs. cbn [fst snd].
      split; [|intros e; discriminate].
      destruct (get_projects_of _) as [ps|e]; [|discriminate].
      set (before := requested _ _ _).
      destruct (loaded_status ps before) as [Hdrawn Hstopped].
      destruct (snd (table_rows ps)) as [e|].
      * destruct (Hstopped e eq_refl) as [_ ->]. discriminate.
      * destruct (Hdrawn eq_refl) as [_ ->]. discriminate.
    + cbn [fst snd]. split; [discriminate|].
      intros e' [= <-]. exact (delete_raises_plain_exception _ _ Hdel).
  - apply lookup_ge_None in Hr.
    rewrite action_delete_beyond by (exact Hs || lia).
    split; [discriminate | intros e [= <-]; reflexivity].
Qed.

Lemma delete_handler_never_entered_witness :
  let body := PDict [("results", PList [PDict [("id", PStr "p1"); ("name", PStr "Demo")]])] in
  let remote := fun (_ : list request) (r : request) =>
    match req_method r with
    | GET => Replied (mkResponse 200 (Some body))
    | DELETE => Replied (mkResponse 500 None)
    end in
  let listed := snd (action_authenticate remote (initial "pk" "sk")) in
  let failed := PyException [Lit "API request failed: "; Exc (HTTPStatusError 500)] in
  projects_table listed = [[PStr "Demo"; PStr "p1"; PStr "N/A"]] /\
  fst (action_delete remote (Some 0) listed) = Raise failed /\
  IndexError_StopIteration failed = false /\
  status_text (snd (action_delete remote (Some 0) listed)) <>
    [Lit "Could not find selected project"].
Proof.
  intros body remote listed failed.
  assert (Hshown : table_shows_projects listed).
  { constructor; [|constructor].
    eexists. split; [left; reflexivity|]. eexists. reflexivity. }
  destruct (delete_handler_never_entered remote listed (Some 0) eq_refl Hshown)
    as [Hstatus Hraised].
  split; [reflexivity|]. split; [reflexivity|].
  split; [exact (Hraised failed eq_refl) | exact Hstatus].
Defined.

(** * Further properties of opening the clusters *)

Lemma quiet_refl (w : World) : quiet w w.
Proof. repeat split. Qed.

Lemma quiet_trans (w1 w2 w3 : World) : quiet w1 w2 -> quiet w2 w3 -> quiet w1 w3.
Proof. intros (H1 & H2 & H3) (K1 & K2 & K3). repeat split; congruence. Qed.

Lemma quiet_update_status (m : message) (c : string) : preserves quiet (update_status m c).
Proof.
  apply preserves_bind; [exact quiet_trans | | intros _].
  - apply preserves_same; [exact quiet_refl|].
    intros w. unfold query_one. now destruct (screen_stack w).
  - apply preserves_bind; [exact quiet_trans | | intros _];
      apply preserves_modify; intros w; repeat split.
    cbn [log add_event]. apply requests_snoc_status.
Qed.

Lemma quiet_action_cluster (cursor_row : option Z) :
  preserves quiet (action_cluster cursor_row).
Proof.
  pose proof quiet_refl as Hrefl. pose proof quiet_trans as Htrans.
  unfold action_cluster.
  apply preserves_bind; [exact Htrans | | intros _].
  { apply preserves_same; [exact Hrefl|].
    intros w. unfold query_one. now destruct (screen_stack w). }
  destruct cursor_row as [i|]; [|apply quiet_update_status].
  destruct (i <? 0); [apply quiet_update_status|].
  apply preserves_try_except; [exact Htrans | | intros e; apply quiet_update_status].
  apply preserves_bind; [exact Htrans | | intros selected_row].
  { apply preserves_same; [exact Hrefl|].
    intros w. unfold get_row_at.
    destruct (_ && _); [|reflexivity]. now destruct (projects_table w !! _). }
  assert (Hitem : forall k, preserves quiet (item selected_row k)).
  { intros k. unfold item.
    destruct (selected_row !! k); [now apply preserves_ret | now apply preserves_raise]. }
  apply preserves_bind; [exact Htrans | apply Hitem | intros project_name].
  apply preserves_bind; [exact Htrans | apply Hitem | intros project_id].
  apply preserves_bind; [exact Htrans | now apply preserves_gets | intros ps].
  destruct (find_project project_id ps) as [p|]; [|apply quiet_update_status].
  apply preserves_bind; [exact Htrans | apply quiet_update_status | intros _].
  apply preserves_bind; [exact Htrans | now apply preserves_gets | intros client].
  apply preserves_bind; [exact Htrans | | intros api].
  - destruct client as [api|]; [now apply preserves_ret|].
    apply preserves_bind; [exact Htrans | now apply preserves_gets | intros pk].
    apply preserves_bind; [exact Htrans | now apply preserves_gets | intros sk].
    apply preserves_bind; [exact Htrans | | intros _; now apply preserves_ret].
    apply preserves_modify. intros w. repeat split.
  - apply preserves_modify. intros w. repeat split.
Qed.

(** Opening the clusters never talks to the remote and never changes the
    stored projects or the table, for any cursor and in any state, whether
    it opens a screen, reports an error or raises: the request for the
    clusters is left to the mounted screen. *)
Theorem open_clusters_sends_nothing (cursor_row : option Z) (w : World) :
  requests (log (snd (action_cluster cursor_row w))) = requests (log w) /\
  projects (snd (action_cluster cursor_row w)) = projects w /\
  projects_table (snd (action_cluster cursor_row w)) = projects_table w.
Proof. apply quiet_action_cluster. Qed.

Lemma find_first {A : Type} (f : A -> bool) (l : list A) (m : nat) (a : A) :
  l !! m = Some a ->
  f a = true ->
  (forall j b, (j < m)%nat -> l !! j = Some b -> f b = false) ->
  List.find f l = Some a.
Proof.
  revert m. induction l as [|x l IH]; intros [|m]; simpl; try discriminate.
  - intros [= ->] Ha _. now rewrite Ha.
  - intros Hm Ha Hbefore.
    rewrite (Hbefore O x) by (reflexivity || lia).
    apply (IH m Hm Ha). intros j b Hj Hb. apply (Hbefore (S j) b); [lia | exact Hb].
Qed.

(** On a table drawn from the stored projects, opening row [n] opens the
    first stored project whose id equals the id of project [n]: project [n]
    itself when no earlier project has an equal id, the earlier one when
    two projects share an id. *)
Theorem open_clusters_opens_first_match (w : World) (n m : nat) (p q : ProjectData) :
  screen_stack w = [] ->
  Forall2 (fun p r => exists date,
             r = [py_or (name p) (PStr "Unnamed Project"); id p; date])
    (projects w) (projects_table w) ->
  projects w !! n = Some p ->
  projects w !! m = Some q ->
  py_eq (id q) (id p) = true ->
  (forall j other, (j < m)%nat -> projects w !! j = Some other ->
     py_eq (id other) (id p) = false) ->
  let out := action_cluster (Some (Z.of_nat n)) w in
  fst out = Ok tt /\
  current_screen (snd out) = ClusterList (length (screens w)) /\
  exists s, screens (snd out) !! length (screens w) = Some s /\
    project_data s = q /\ clusters s = [] /\
    status_text (snd out) =
      [Lit "Opening clusters for: "; Val (py_or (name p) (PStr "Unnamed Project"))].
Proof.
  intros Hs Haligned Hp Hq Heq Hfirst out. subst out.
  destruct (Forall2_lookup_l _ _ _ _ _ Haligned Hp) as (r & Hr & date & ->).
  assert (Hfind : find_project (id p) (projects w) = Some q).
  { unfold find_project.
    apply (find_first (fun project => py_eq (id project) (id p)) _ m q Hq Heq Hfirst). }
  rewrite <- (Nat2Z.id n) in Hr.
  rewrite (action_cluster_found (Z.of_nat n) w _
             (py_or (name p) (PStr "Unnamed Project")) (id p) q
             Hs (Nat2Z.is_nonneg n) Hr eq_refl eq_refl Hfind).
  cbn [fst snd]. split; [reflexivity|].
  destruct (opened_screen (py_or (name p) (PStr "Unnamed Project")) q w)
    as (api & Hscreens & Hstack).
  unfold current_screen. rewrite Hstack, Hscreens. split; [reflexivity|].
  exists (mkScreen q api [] [] [Lit "Loading clusters..."] true).
  split; [now apply list_lookup_middle|]. split; [reflexivity|]. split; [reflexivity|].
  unfold opened. destruct (api_client w); reflexivity.
Qed.

Lemma open_clusters_opens_first_match_witness :
  let body :=
    PDict [("results", PList [PDict [("id", PStr "p1"); ("name", PStr "First")];
                              PDict [("id", PStr "p1"); ("name", PStr "Second")]])] in
  let remote := fun (_ : list request) (_ : request) =>
    Replied (mkResponse 200 (Some body)) in
  let w := snd (action_authenticate remote (initial "pk" "sk")) in
  exists s, screens (snd (action_cluster (Some 1) w)) !! 0%nat = Some s /\
    name (project_data s) = PStr "First" /\
    status_text (snd (action_cluster (Some 1) w)) =
      [Lit "Opening clusters for: "; Val (PStr "Second")].
Proof.
  intros body remote w.
  destruct (open_clusters_opens_first_match w 1 0
              (mkProjectData (PStr "p1") (PStr "Second") (PStr "") (PStr "") (PInt 0)
                 (PList []))
              (mkProjectData (PStr "p1") (PStr "First") (PStr "") (PStr "") (PInt 0)
                 (PList []))
              eq_refl)
    as (_ & _ & s & Hs & Hq & _ & Htext);
    try reflexivity.
  - repeat constructor; eexists; reflexivity.
  - intros j other Hj. lia.
  - exists s. split; [exact Hs|]. split; [now rewrite Hq | exact Htext].
Defined.

(** The screen opened for a row holds the very client the application
    holds afterwards: the one it held before when there was one, a new one
    built from the application's keys otherwise. *)
Theorem open_clusters_shares_client (i : Z) (w : World) (r : row)
    (project_name project_id : pyval) (p : ProjectData) :
  screen_stack w = [] ->
  0 <= i ->
  projects_table w !! Z.to_nat i = Some r ->
  r !! 0%nat = Some project_name ->
  r !! 1%nat = Some project_id ->
  find_project project_id (projects w) = Some p ->
  let out := action_cluster (Some i) w in
  exists s, screens (snd out) !! length (screens w) = Some s /\
    api_client (snd out) = Some (scr_api_client s) /\
    (forall held, api_client w = Some held -> scr_api_client s = held) /\
    (api_client w = None ->
     scr_api_client s = mkAtlasAPI (public_key w) (private_key w)).
Proof.
  intros Hs Hi Hr Hname Hid Hfind out. subst out.
  rewrite (action_cluster_found i w r project_name project_id p Hs Hi Hr Hname Hid Hfind).
  cbn [snd]. unfold opened.
  destruct (api_client w) as [held|] eqn:Hclient.
  - exists (mkScreen p held [] [] [Lit "Loading clusters..."] true).
    split; [now apply list_lookup_middle|].
    split; [exact Hclient|]. split; [now intros ? [= <-] | discriminate].
  - exists (mkScreen p (mkAtlasAPI (public_key w) (private_key w)) [] []
              [Lit "Loading clusters..."] true).
    split; [now apply list_lookup_middle|].
    split; [reflexivity|]. split; [discriminate | reflexivity].
Qed.

Lemma open_clusters_shares_client_witness :
  let w := set_projects_table [[PStr "Demo"; PStr "p1"; PStr "N/A"]]
             (set_projects
                [mkProjectData (PStr "p1") (PStr "Demo") (PStr "") (PStr "") (PInt 0)
                   (PList [])]
                (initial "pk" "sk")) in
  exists s, screens (snd (action_cluster (Some 0) w)) !! 0%nat = Some s /\
    scr_api_client s = mkAtlasAPI "pk" "sk" /\
    api_client (snd (action_cluster (Some 0) w)) = Some (mkAtlasAPI "pk" "sk").
Proof.
  intros w.
  destruct (open_clusters_shares_client 0 w [PStr "Demo"; PStr "p1"; PStr "N/A"]
              (PStr "Demo") (PStr "p1")
              (mkProjectData (PStr "p1") (PStr "Demo") (PStr "") (PStr "") (PInt 0)
                 (PList []))
              eq_refl (Z.le_refl 0) eq_refl eq_refl eq_refl eq_refl)
    as (s & Hs & Hshared & _ & Hnew).
  exists s. split; [exact Hs|]. rewrite Hshared, (Hnew eq_refl). split; reflexivity.
Defined.

(** Opening a row and going back returns to the project list with the
    stored projects, the table and the screen stack as they were. *)
Theorem open_then_back_restores_project_list (i : Z) (w : World) (r : row)
    (project_name project_id : pyval) (p : ProjectData) :
  screen_stack w = [] ->
  0 <= i ->
  projects_table w !! Z.to_nat i = Some r ->
  r !! 0%nat = Some project_name ->
  r !! 1%nat = Some project_id ->
  find_project project_id (projects w) = Some p ->
  let there := snd (action_cluster (Some i) w) in
  let back := action_back there in
  current_screen there = ClusterList (length (screens w)) /\
  fst back = Ok tt /\
  current_screen (snd back) = ProjectList /\
  screen_stack (snd back) = screen_stack w /\
  projects (snd back) = projects w /\
  projects_table (snd back) = projects_table w.
Proof.
  intros Hs Hi Hr Hname Hid Hfind.
  rewrite (action_cluster_found i w r project_name project_id p Hs Hi Hr Hname Hid Hfind).
  cbn [snd].
  destruct (opened_screen project_name p w) as (api & Hscreens & Hstack).
  assert (Hlisting : projects (opened project_name p w) = projects w /\
                     projects_table (opened project_name p w) = projects_table w).
  { unfold opened. destruct (api_client w); split; reflexivity. }
  destruct Hlisting as [Hp Ht].
  cbv zeta. unfold current_screen, action_back. rewrite Hstack, Hs. cbn [fst snd].
  cbn [screen_stack set_screen_stack projects projects_table screens].
  rewrite Hp, Ht. repeat split.
Qed.

Lemma open_then_back_restores_project_list_witness :
  let w := set_projects_table [[PStr "Demo"; PStr "p1"; PStr "N/A"]]
             (set_projects
                [mkProjectData (PStr "p1") (PStr "Demo") (PStr "") (PStr "") (PInt 0)
                   (PList [])]
                (initial "pk" "sk")) in
  current_screen (snd (action_cluster (Some 0) w)) = ClusterList 0 /\
  current_screen (snd (action_back (snd (action_cluster (Some 0) w)))) = ProjectList /\
  projects_table (snd (action_back (snd (action_cluster (Some 0) w)))) =
    [[PStr "Demo"; PStr "p1"; PStr "N/A"]].
Proof.
  intros w.
  destruct (open_then_back_restores_project_list 0 w [PStr "Demo"; PStr "p1"; PStr "N/A"]
              (PStr "Demo") (PStr "p1")
              (mkProjectData (PStr "p1") (PStr "Demo") (PStr "") (PStr "") (PInt 0)
                 (PList []))
              eq_refl (Z.le_refl 0) eq_refl eq_refl eq_refl eq_refl)
    as (Hthere & _ & Hscreen & _ & _ & Htable).
  split; [exact Hthere|]. split; [exact Hscreen | exact Htable].
Defined.

(** * Further properties of the cluster screen *)

Section ClusterScreenLoads.

Variable remote : list request -> request -> exchange.
Variable self : nat.

Lemma set_screens_same (w : World) : set_screens (screens w) w = w.
Proof. now destruct w. Qed.

Lemma add_rows_nil (s : ClusterViewScreen) :
  with_clusters_table (clusters_table s ++ []) s = s.
Proof. destruct s. unfold with_clusters_table. simpl. now rewrite app_nil_r. Qed.

(** The loop of [update_clusters_table] appends one row per cluster. *)
Lemma add_cluster_rows (cs : list ClusterData) (w : World) :
  for_each cs (fun cluster =>
    modify_screen self
      (fun s => with_clusters_table (clusters_table s ++ [cluster_row cluster]) s)) w =
  (Ok tt,
   set_screens
     (alter (fun s => with_clusters_table (clusters_table s ++ map cluster_row cs) s)
        self (screens w)) w).
Proof.
  revert w. induction cs as [|c cs IH]; intros w; simpl.
  - unfold ret. rewrite (list_alter_id _ _ _ add_rows_nil). now rewrite set_screens_same.
  - unfold bind, modify_screen at 1, modify at 1. rewrite IH.
    cbn [screens set_screens]. rewrite list_alter_alter_eq.
    f_equal. unfold set_screens.
    cbn [screens status_text status_class projects projects_table api_client
         public_key private_key screen_stack log].
    f_equal. apply list_alter_ext; [|reflexivity].
    intros s _. destruct s. unfold with_clusters_table. cbn.
    now rewrite <- app_assoc.
Qed.

Lemma get_screen_run (w : World) (s : ClusterViewScreen) :
  screens w !! self = Some s -> get_screen self w = (Ok s, w).
Proof. unfold get_screen. now intros ->. Qed.

Lemma screen_query_one_run (selector : string) (w : World) (s : ClusterViewScreen) :
  screens w !! self = Some s ->
  attached s = true ->
  screen_query_one self selector w = (Ok tt, w).
Proof.
  intros Hs Ha. unfold screen_query_one, bind. now rewrite (get_screen_run w s Hs), Ha.
Qed.

Lemma update_clusters_table_run (w : World) (s : ClusterViewScreen) :
  screens w !! self = Some s ->
  attached s = true ->
  exists w',
    update_clusters_table self w = (Ok tt, w') /\
    screens w' !! self = Some (with_clusters_table (map cluster_row (clusters s)) s) /\
    log w' = log w /\
    outside self w w'.
Proof.
  intros Hs Ha.
  unfold update_clusters_table.
  unfold bind at 1. rewrite (screen_query_one_run _ w s Hs Ha).
  unfold bind at 1, modify_screen at 1, modify at 1.
  set (w1 := set_screens (alter (with_clusters_table []) self (screens w)) w).
  assert (Hs1 : screens w1 !! self = Some (with_clusters_table [] s)).
  { unfold w1. cbn [screens set_screens]. now rewrite list_lookup_alter_eq, Hs. }
  unfold bind at 1. rewrite (get_screen_run w1 _ Hs1). cbn [clusters with_clusters_table].
  rewrite add_cluster_rows. eexists. split; [reflexivity|].
  split; [|split].
  - cbn [screens set_screens]. rewrite list_lookup_alter_eq, Hs1. reflexivity.
  - reflexivity.
  - apply (outside_trans self w w1); [apply outside_screen|].
    apply outside_screen.
Qed.

Lemma outside_say_on (m : message) (w : World) : outside self w (say_on self m w).
Proof.
  unfold say_on.
  apply (outside_trans self w
           (set_screens (alter (with_cluster_status m) self (screens w)) w));
    [apply outside_screen | apply outside_event].
Qed.

Lemma on_mount_loaded (w : World) (s : ClusterViewScreen) (cs : list ClusterData) :
  screens w !! self = Some s ->
  attached s = true ->
  let req :=
    mkRequest GET (GroupClusters (id (project_data s))) (auth_of (scr_api_client s)) in
  get_clusters_of (remote (requests (log w)) req) = Ok cs ->
  exists w',
    on_mount remote self w = (Ok tt, w') /\
    screens w' !! self =
      Some (mkScreen (project_data s) (scr_api_client s) cs (map cluster_row cs)
              [Lit "Successfully loaded "; Num (Z.of_nat (length cs)); Lit " cluster";
               Lit (plural (Z.of_nat (length cs)))] true) /\
    requests (log w') = requests (log w) ++ [req] /\
    outside self w w'.
Proof.
  intros Hs Ha req Hok.
  unfold on_mount, fetch_clusters, try_except, fetch_clusters_request.
  unfold bind at 1. unfold bind at 1.
  rewrite (screen_update_status_run self _ w s Hs Ha).
  pose proof (say_on_lookup self [Lit "Loading clusters..."] w s Hs) as Hs1.
  set (w1 := say_on self [Lit "Loading clusters..."] w) in *.
  assert (Hlog1 : requests (log w1) = requests (log w)).
  { unfold w1, say_on. cbn [log add_event set_screens].
    apply requests_snoc_cluster_status. }
  assert (Hout1 : outside self w w1).
  { apply outside_say_on. }
  unfold bind at 1, get_screen at 1. rewrite Hs1.
  unfold send. cbn [project_data scr_api_client with_cluster_status].
  fold req. rewrite Hlog1.
  set (w2 := add_event (Sent req) w1).
  unfold fetch_clusters_apply, bind at 1, lift at 1. rewrite Hok.
  unfold bind at 1, modify_screen at 1, modify at 1.
  set (w3 := set_screens (alter (with_clusters cs) self (screens w2)) w2).
  set (s3 := with_clusters cs (with_cluster_status [Lit "Loading clusters..."] s)).
  assert (Hs3 : screens w3 !! self = Some s3).
  { unfold w3, w2, s3. cbn [screens set_screens add_event].
    now rewrite list_lookup_alter_eq, Hs1. }
  destruct (update_clusters_table_run w3 s3 Hs3 Ha) as (w4 & Hrun & Hs4 & Hlog4 & Hout4).
  unfold bind at 1. rewrite Hrun.
  rewrite (screen_update_status_run self _ w4 _ Hs4 Ha).
  eexists. split; [reflexivity|]. split; [|split].
  - rewrite (say_on_lookup self _ w4 _ Hs4). unfold s3.
    unfold with_cluster_status, with_clusters_table, with_clusters.
    cbn [clusters project_data scr_api_client clusters_table cluster_status_display
         attached].
    now rewrite Ha.
  - unfold say_on. cbn [log add_event set_screens].
    rewrite requests_snoc_cluster_status, Hlog4.
    unfold w3, w2. cbn [log add_event set_screens].
    now rewrite requests_snoc_sent, Hlog1.
  - apply (outside_trans self w w1 _ Hout1).
    apply (outside_trans self w1 w2); [apply outside_event|].
    apply (outside_trans self w2 w3); [apply outside_screen|].
    apply (outside_trans self w3 w4 _ Hout4), outside_say_on.
Qed.

End ClusterScreenLoads.

(** ** Going back while a request is in flight *)





(** When the response decodes, mounting a cluster screen stores the
    clusters in the screen, redraws its table with exactly one row per
    cluster in order, and reports their number; the screen keeps its
    project, and nothing outside the screen changes. *)
Theorem mount_loads_clusters
    (remote : list request -> request -> exchange) (self : nat) (w : World)
    (s : ClusterViewScreen) (cs : list ClusterData) :
  screens w !! self = Some s ->
  attached s = true ->
  get_clusters_of
    (remote (requests (log w))
       (mkRequest GET (GroupClusters (id (project_data s))) (auth_of (scr_api_client s))))
  = Ok cs ->
  let out := on_mount remote self w in
  fst out = Ok tt /\
  (exists s', screens (snd out) !! self = Some s' /\
     clusters s' = cs /\
     clusters_table s' = map cluster_row cs /\
     length (clusters_table s') = length cs /\
     cluster_status_display s' =
       [Lit "Successfully loaded "; Num (Z.of_nat (length cs)); Lit " cluster";
        Lit (if Z.of_nat (length cs) =? 1 then "" else "s")] /\
     project_data s' = project_data s) /\
  outside self w (snd out).
Proof.
  intros Hs Ha Hok out. subst out.
  destruct (on_mount_loaded remote self w s cs Hs Ha Hok) as (w' & -> & Hs' & _ & Hout).
  cbn [fst snd]. split; [reflexivity|]. split; [|exact Hout].
  eexists. split; [exact Hs'|]. cbn. rewrite length_map. repeat split.
Qed.

Lemma mount_loads_clusters_witness :
  let body := PDict [("results", PList [PDict [("name", PStr "Cluster0")]; PDict []])] in
  let remote := fun (_ : list request) (_ : request) =>
    Replied (mkResponse 200 (Some body)) in
  let project :=
    mkProjectData (PStr "p1") (PStr "Demo") (PStr "") (PStr "") (PInt 0) (PList []) in
  let w := pushed project (mkAtlasAPI "pk" "sk") (initial "pk" "sk") in
  exists s', screens (snd (on_mount remote 0 w)) !! 0%nat = Some s' /\
    map (fun r => r !! 0%nat) (clusters_table s') =
      [Some (PStr "Cluster0"); Some (PStr "Unnamed Cluster")] /\
    cluster_status_display s' = [Lit "Successfully loaded "; Num 2; Lit " cluster"; Lit "s"].
Proof.
  intros body remote project w.
  destruct (mount_loads_clusters remote 0 w
              (mkScreen project (mkAtlasAPI "pk" "sk") [] [] [Lit "Loading clusters..."] true)
              _ eq_refl eq_refl eq_refl)
    as (_ & (s' & Hs' & _ & Htable & _ & Hstatus & _) & _).
  exists s'. split; [exact Hs'|]. rewrite Htable. split; [reflexivity | exact Hstatus].
Defined.

(** Mounting an attached cluster screen whose project id makes a URL
    httpx accepts returns normally whatever the remote answers, and sends
    exactly one request: [GET] of the clusters of the screen's own project
    id, with the keys of the screen's client. *)
Theorem mount_sends_one_request
    (remote : list request -> request -> exchange) (self : nat) (w : World)
    (s : ClusterViewScreen) :
  screens w !! self = Some s ->
  attached s = true ->
  sendable (GroupClusters (id (project_data s))) = true ->
  let out := on_mount remote self w in
  fst out = Ok tt /\
  requests (log (snd out)) =
    requests (log w) ++
    [mkRequest GET (GroupClusters (id (project_data s)))
       (api_public_key (scr_api_client s), api_private_key (scr_api_client s))].
Proof.
  intros Hs Ha _ out. subst out.
  set (req := mkRequest GET (GroupClusters (id (project_data s)))
                (auth_of (scr_api_client s))).
  destruct (get_clusters_of (remote (requests (log w)) req)) as [cs|e] eqn:Hreply.
  - destruct (on_mount_loaded remote self w s cs Hs Ha Hreply)
      as (w' & -> & _ & Hrequests & _).
    split; [reflexivity | exact Hrequests].
  - rewrite (on_mount_failed remote self w s e Hs Ha Hreply).
    split; [reflexivity|]. cbn [snd]. unfold say_on. cbn [log add_event set_screens].
    now rewrite requests_snoc_cluster_status, requests_snoc_sent,
      requests_snoc_cluster_status.
Qed.

Lemma mount_sends_one_request_witness :
  let remote := fun (_ : list request) (_ : request) => Replied (mkResponse 503 None) in
  let project :=
    mkProjectData (PStr "p1") (PStr "Demo") (PStr "") (PStr "") (PInt 0) (PList []) in
  let w := pushed project (mkAtlasAPI "pk" "sk") (initial "pk" "sk") in
  url (GroupClusters (PStr "p1")) =
    Some "https://cloud.mongodb.com/api/atlas/v2/groups/p1/clusters" /\
  sendable (GroupClusters (PStr "p1")) = true /\
  requests (log (snd (on_mount remote 0 w))) =
  [mkRequest GET (GroupClusters (PStr "p1")) ("pk", "sk")].
Proof.
  intros remote project w.
  split; [reflexivity|]. split; [reflexivity|].
  exact (proj2 (mount_sends_one_request remote 0 w
                  (mkScreen project (mkAtlasAPI "pk" "sk") [] []
                     [Lit "Loading clusters..."] true)
                  eq_refl eq_refl eq_refl)).
Defined.

(** * Further properties of a session *)

(** After a delete that succeeded, the listing is whatever the reload
    brings: the projects the remote then lists, the deleted one included if
    the remote still lists it; and when the reload fails, the listing stays
    as it was, the deleted project still on display, under an error
    status.  The project is never removed locally. *)
Theorem delete_shows_what_remote_lists
    (remote : list request -> request -> exchange) (w : World) (i : Z)
    (r : row) (project_name project_id : pyval) :
  screen_stack w = [] ->
  0 <= i ->
  projects_table w !! Z.to_nat i = Some r ->
  r !! 0%nat = Some project_name ->
  r !! 1%nat = Some project_id ->
  let delete := mkRequest DELETE (Group project_id) (public_key w, private_key w) in
  let reload := mkRequest GET Groups (public_key w, private_key w) in
  delete_one_project_of (remote (requests (log w)) delete) = Ok true ->
  let out := action_delete remote (Some i) w in
  (forall ps,
     get_projects_of (remote (requests (log w) ++ [delete]) reload) = Ok ps ->
     fst out = Ok tt /\ projects (snd out) = ps) /\
  (forall e,
     get_projects_of (remote (requests (log w) ++ [delete]) reload) = Raise e ->
     fst out = Ok tt /\
     projects (snd out) = projects w /\
     projects_table (snd out) = projects_table w /\
     status_class (snd out) = "error" /\
     status_text (snd out) = [Lit "Error: "; Exc e]).
Proof.
  intros Hs Hi Hr Hname Hid delete reload Hdeleted out. subst out.
  rewrite (action_delete_run remote w i r project_name project_id Hs Hi Hr Hname Hid).
  fold delete. rewrite Hdeleted.
  set (w1 := say _ "success" _).
  assert (Hs1 : screen_stack w1 = []) by exact Hs.
  assert (Hlog1 : requests (log w1) = requests (log w) ++ [delete]).
  { unfold w1, deleting. cbn [say log add_event set_status set_api_client].
    now rewrite requests_snoc_status, requests_snoc_sent, !requests_snoc_status. }
  rewrite (fetch_projects_run remote _ _ w1 Hs1), Hlog1. fold reload. cbn [fst snd].
  split.
  - intros ps ->. split; [reflexivity|]. apply loaded_listing.
  - intros e ->. split; [reflexivity|].
    destruct (requested_frame (public_key w) (private_key w) w1) as (Hp & Ht & _).
    cbn [say projects projects_table status_class status_text add_event set_status].
    rewrite Hp, Ht. repeat split.
Qed.

Lemma delete_shows_what_remote_lists_witness :
  let body :=
    PDict [("results", PList [PDict [("id", PStr "p1"); ("name", PStr "Demo")]])] in
  let remote := fun (_ : list request) (r : request) =>
    match req_method r with
    | DELETE => Replied (mkResponse 204 None)
    | GET => Replied (mkResponse 200 (Some body))
    end in
  let w := snd (action_authenticate remote (initial "pk" "sk")) in
  map id (projects (snd (action_delete remote (Some 0) w))) = [PStr "p1"].
Proof.
  intros body remote w.
  destruct (delete_shows_what_remote_lists remote w 0
              [PStr "Demo"; PStr "p1"; PStr "N/A"] (PStr "Demo") (PStr "p1")
              eq_refl (Z.le_refl 0) eq_refl eq_refl eq_refl eq_refl) as [Hlisted _].
  destruct (Hlisted _ eq_refl) as [_ Hps].
  exact (f_equal (map id) Hps).
Defined.

(** In every state a session reaches, each row of the project table has
    the three cells of the columns the table declares, the first two being
    the display name and the id of one of the stored projects; and a row
    built for a cluster always has the six cells of the cluster table's
    columns. *)
Theorem session_rows_match_columns
    (remote : list request -> request -> exchange) (w : World) :
  reachable remote w ->
  Forall (fun r =>
            length r = length ProjectsTable_columns /\
            exists p, In p (projects w) /\
              r !! 0%nat = Some (py_or (name p) (PStr "Unnamed Project")) /\
              r !! 1%nat = Some (id p))
    (projects_table w) /\
  forall cluster, length (cluster_row cluster) = length ClustersTable_columns.
Proof.
  intros Hreach. split; [|reflexivity].
  pose proof (reachable_table_shows_projects remote w Hreach) as Hinv.
  unfold table_shows_projects in Hinv.
  eapply Forall_impl; [exact Hinv|].
  intros r (p & Hin & date & ->). split; [reflexivity|].
  exists p. repeat split. exact Hin.
Qed.

Lemma session_rows_match_columns_witness :
  let body :=
    PDict [("results", PList [PDict [("id", PStr "p1"); ("name", PStr "Demo")]])] in
  let remote := fun (_ : list request) (_ : request) =>
    Replied (mkResponse 200 (Some body)) in
  Forall (fun r => length r = 3%nat)
    (projects_table (snd (action_authenticate remote (initial "pk" "sk")))).
Proof.
  intros body remote.
  assert (Hreach : reachable remote (snd (action_authenticate remote (initial "pk" "sk")))).
  { eapply reachable_step; [apply (reachable_initial remote "pk" "sk")|].
    apply step_authenticate. reflexivity. }
  eapply Forall_impl; [exact (proj1 (session_rows_match_columns remote _ Hreach))|].
  intros r [Hlen _]. exact Hlen.
Defined.

(** On a table drawn from the stored projects, deleting row [n], when
    the id of project [n] makes a URL httpx accepts, sends [DELETE] for
    that id, with the application's keys, and after it at most the one
    [GET /groups] of the reload. *)
Theorem delete_targets_selected_row
    (remote : list request -> request -> exchange) (w : World) (n : nat)
    (p : ProjectData) :
  screen_stack w = [] ->
  Forall2 (fun p r => exists date,
             r = [py_or (name p) (PStr "Unnamed Project"); id p; date])
    (projects w) (projects_table w) ->
  projects w !! n = Some p ->
  sendable (Group (id p)) = true ->
  let out := action_delete remote (Some (Z.of_nat n)) w in
  exists rest,
    requests (log (snd out)) =
      requests (log w) ++
      mkRequest DELETE (Group (id p)) (public_key w, private_key w) :: rest /\
    (rest = [] \/ rest = [mkRequest GET Groups (public_key w, private_key w)]).
Proof.
  intros Hs Haligned Hp _ out. subst out.
  destruct (Forall2_lookup_l _ _ _ _ _ Haligned Hp) as (r & Hr & date & ->).
  rewrite <- (Nat2Z.id n) in Hr.
  rewrite (action_delete_run remote w (Z.of_nat n) _
             (py_or (name p) (PStr "Unnamed Project")) (id p)
             Hs (Nat2Z.is_nonneg n) Hr eq_refl eq_refl).
  set (delete := mkRequest DELETE (Group (id p)) (public_key w, private_key w)).
  assert (Hsent : requests (log (deleting (Z.of_nat n)
                    (py_or (name p) (PStr "Unnamed Project")) (id p) w))
                  = requests (log w) ++ [delete]).
  { unfold deleting. cbn [say log add_event set_status set_api_client].
    now rewrite requests_snoc_sent, !requests_snoc_status. }
  destruct (delete_one_project_of _) as [b|e].
  - set (w1 := say _ "success" _).
    assert (Hs1 : screen_stack w1 = []) by exact Hs.
    destruct (fetch_projects_log remote (public_key w) (private_key w) w1 Hs1)
      as (tail & Hlog & Htail).
    exists [mkRequest GET Groups (public_key w, private_key w)].
    split; [|now right].
    rewrite Hlog, requests_app, Htail.
    unfold w1. cbn [say log add_event set_status].
    rewrite requests_snoc_status, Hsent. now rewrite <- app_assoc.
  - exists []. split; [exact Hsent | now left].
Qed.

Lemma delete_targets_selected_row_witness :
  let body :=
    PDict [("results", PList [PDict [("id", PStr "p1"); ("name", PStr "Demo")];
                              PDict [("id", PStr "p2"); ("name", PStr "Demo")]])] in
  let remote := fun (_ : list request) (r : request) =>
    match req_method r with
    | DELETE => Replied (mkResponse 403 None)
    | GET => Replied (mkResponse 200 (Some body))
    end in
  let w := snd (action_authenticate remote (initial "pk" "sk")) in
  sendable (Group (PStr "p2")) = true /\
  exists rest,
    requests (log (snd (action_delete remote (Some 1) w))) =
    requests (log w) ++ mkRequest DELETE (Group (PStr "p2")) ("pk", "sk") :: rest.
Proof.
  intros body remote w. split; [reflexivity|].
  destruct (delete_targets_selected_row remote w 1
              (mkProjectData (PStr "p2") (PStr "Demo") (PStr "") (PStr "") (PInt 0)
                 (PList []))
              eq_refl) as (rest & Hrequests & _).
  - repeat constructor; eexists; reflexivity.
  - reflexivity.
  - reflexivity.
  - exists rest. exact Hrequests.
Defined.

(** The delete action replaces the application's client by a new one
    without closing the one held before: a delete that fails closes no
    client at all, and a delete that succeeds closes exactly one, in the
    reload that follows. *)
Theorem delete_replaces_client_without_closing
    (remote : list request -> request -> exchange) (w : World) (i : Z)
    (r : row) (project_name project_id : pyval) :
  screen_stack w = [] ->
  0 <= i ->
  projects_table w !! Z.to_nat i = Some r ->
  r !! 0%nat = Some project_name ->
  r !! 1%nat = Some project_id ->
  let delete := mkRequest DELETE (Group project_id) (public_key w, private_key w) in
  let out := action_delete remote (Some i) w in
  api_client (snd out) = Some (mkAtlasAPI (public_key w) (private_key w)) /\
  (forall e, delete_one_project_of (remote (requests (log w)) delete) = Raise e ->
     closes (log (snd out)) = closes (log w)) /\
  (delete_one_project_of (remote (requests (log w)) delete) = Ok true ->
     closes (log (snd out)) = S (closes (log w))).
Proof.
  intros Hs Hi Hr Hname Hid delete out. subst out.
  rewrite (action_delete_run remote w i r project_name project_id Hs Hi Hr Hname Hid).
  fold delete.
  assert (Hclosed : closes (log (deleting i project_name project_id w)) = closes (log w)).
  { unfold deleting. cbn [say log add_event set_status set_api_client].
    rewrite !closes_app. cbn. lia. }
  destruct (delete_one_project_of _) as [b|e].
  - set (w1 := say _ "success" _).
    assert (Hs1 : screen_stack w1 = []) by exact Hs.
    assert (Hc1 : closes (log w1) = closes (log w)).
    { unfold w1. cbn [say log add_event set_status]. rewrite closes_app, Hclosed.
      cbn. lia. }
    assert (Ha1 : api_client w1 = Some (mkAtlasAPI (public_key w) (private_key w)))
      by reflexivity.
    rewrite (fetch_projects_run remote _ _ w1 Hs1). cbn [snd].
    destruct (requested_client (public_key w) (private_key w) w1)
      as (Hclient & Hcloses & _).
    rewrite Ha1, Hc1 in Hcloses.
    assert (Hfinal :
      api_client (match get_projects_of (remote (requests (log w1))
                          (mkRequest GET Groups (public_key w, private_key w))) with
                  | Ok ps => loaded ps (requested (public_key w) (private_key w) w1)
                  | Raise e =>
                      say [Lit "Error: "; Exc e] "error"
                        (requested (public_key w) (private_key w) w1)
                  end) = Some (mkAtlasAPI (public_key w) (private_key w)) /\
      closes (log (match get_projects_of (remote (requests (log w1))
                          (mkRequest GET Groups (public_key w, private_key w))) with
                   | Ok ps => loaded ps (requested (public_key w) (private_key w) w1)
                   | Raise e =>
                       say [Lit "Error: "; Exc e] "error"
                         (requested (public_key w) (private_key w) w1)
                   end)) = S (closes (log w))).
    { destruct (get_projects_of _) as [ps|e].
      - destruct (loaded_log ps (requested (public_key w) (private_key w) w1))
          as (m & c & Hlog).
        destruct (loaded_frame ps (requested (public_key w) (private_key w) w1))
          as (Ha & _).
        rewrite Ha, Hlog, closes_app, Hcloses. cbn. split; [exact Hclient | lia].
      - cbn [say log add_event set_status api_client].
        rewrite closes_app, Hcloses. cbn. split; [exact Hclient | lia]. }
    destruct Hfinal as [Hfa Hfc].
    split; [exact Hfa|]. split; [discriminate | intros _; exact Hfc].
  - cbn [snd]. split; [reflexivity|]. split; [intros _ _; exact Hclosed | discriminate].
Qed.

Lemma delete_replaces_client_without_closing_witness :
  let body :=
    PDict [("results", PList [PDict [("id", PStr "p1"); ("name", PStr "Demo")]])] in
  let remote := fun (_ : list request) (r : request) =>
    match req_method r with
    | DELETE => Replied (mkResponse 404 None)
    | GET => Replied (mkResponse 200 (Some body))
    end in
  let w := snd (action_authenticate remote (initial "pk" "sk")) in
  api_client w <> None /\
  closes (log (snd (action_delete remote (Some 0) w))) = 0%nat.
Proof.
  intros body remote w. split; [discriminate|].
  destruct (delete_replaces_client_without_closing remote w 0
              [PStr "Demo"; PStr "p1"; PStr "N/A"] (PStr "Demo") (PStr "p1")
              eq_refl (Z.le_refl 0) eq_refl eq_refl eq_refl) as (_ & Hfailed & _).
  exact (Hfailed _ eq_refl).
Defined.

(** The display fallbacks cover the name, the state and the version of a
    cluster, never its provider fields: whatever stands under a key of the
    settings object, [null] or an empty string included, is the cell that is
    drawn, while a falsy state or version is drawn as "Unknown" and a falsy
    name as "Unnamed Cluster". *)
Theorem provider_cells_have_no_fallback (d ps : pydict) (c : ClusterData) :
  dict_lookup d "providerSettings" = Some (PDict ps) ->
  ClusterData_init (PDict d) = Ok c ->
  (forall v, dict_lookup ps "providerName" = Some v -> cluster_row c !! 2%nat = Some v) /\
  (forall v, dict_lookup ps "regionName" = Some v -> cluster_row c !! 3%nat = Some v) /\
  (forall v, dict_lookup ps "instanceSizeName" = Some v ->
     cluster_row c !! 4%nat = Some v) /\
  (forall v, dict_lookup d "name" = Some v -> truthy v = false ->
     cluster_row c !! 0%nat = Some (PStr "Unnamed Cluster")) /\
  (forall v, dict_lookup d "stateName" = Some v -> truthy v = false ->
     cluster_row c !! 1%nat = Some (PStr "Unknown")) /\
  (forall v, dict_lookup d "mongoDBVersion" = Some v -> truthy v = false ->
     cluster_row c !! 5%nat = Some (PStr "Unknown")).
Proof.
  intros Hps Hc.
  assert (Hget : dict_get d "providerSettings" (PDict []) = PDict ps)
    by now apply dict_get_present.
  assert (Hok : settings_ok d = true) by (unfold settings_ok; now rewrite Hget).
  rewrite (ClusterData_init_ok d Hok) in Hc. injection Hc as <-.
  unfold cluster_row, provider_field, py_or. cbn [cl_name state_name provider_name
    region_name instance_size_name mongo_db_version]. rewrite Hget.
  repeat split; intros v Hv; cbn [lookup list_lookup];
    rewrite (dict_get_present _ _ _ _ Hv); try reflexivity; now intros ->.
Qed.

Lemma provider_cells_have_no_fallback_witness :
  let settings := [("providerName", PNone); ("regionName", PStr "")] in
  let d := [("stateName", PNone); ("providerSettings", PDict settings)] in
  exists c, ClusterData_init (PDict d) = Ok c /\
    cluster_row c !! 2%nat = Some PNone /\
    cluster_row c !! 1%nat = Some (PStr "Unknown").
Proof.
  intros settings d. eexists. split; [reflexivity|].
  destruct (provider_cells_have_no_fallback d settings _ eq_refl eq_refl)
    as (Hprovider & _ & _ & _ & Hstate & _).
  split; [exact (Hprovider PNone eq_refl) | exact (Hstate PNone eq_refl eq_refl)].
Defined.
